(** * FaaSr_py.secrets_api.secret: resolution of a named secret

    Shallow embedding of [src/FaaSr_py/secrets_api/secret.py] and the
    properties of its two functions, [faasr_secret_gh] and [faasr_secret].

    The payload is a [dict[str, Any]]: its values are modelled by [pyval],
    the values a JSON document decodes to (floating-point numbers are left
    out).  Strings are sequences of code points below 256.  The two functions
    run in a small state-and-exception monad [M] over a [world] that holds
    the caller's payload object, the process environment ([os.environ],
    POSIX semantics: names are looked up as they are), a chronological
    trace of the lookups and of the calls to [logger.error], and the limits
    the interpreter puts on the conversion of a value to text. *)

From Stdlib Require Import ZArith List Ascii String.
From stdpp Require Import base strings gmap pretty.

Set Warnings "-register-all".
Local Open Scope string_scope.
Local Open Scope Z_scope.

(** ** Python values *)

Module Py.

(** A dict keeps its insertion order (it shows in [str]), so it is an
    association list; its keys are distinct in every dict Python builds,
    and a lookup takes the first binding. *)
Inductive pyval : Type :=
  | VNone
  | VBool (b : bool)
  | VInt (n : Z)
  | VStr (s : string)
  | VList (l : list pyval)
  | VDict (d : list (string * pyval)).

Abbreviation pydict := (list (string * pyval)).

(** [bool(v)], the test behind [not v]. *)
Definition truthy (v : pyval) : bool :=
  match v with
  | VNone => false
  | VBool b => b
  | VInt n => negb (n =? 0)
  | VStr s => negb (String.eqb s "")
  | VList l => match l with [] => false | _ => true end
  | VDict d => match d with [] => false | _ => true end
  end.

(** [k in d] and [d[k]] for a string key. *)
Fixpoint dict_lookup (d : pydict) (k : string) : option pyval :=
  match d with
  | [] => None
  | (k', v) :: d' => if String.eqb k' k then Some v else dict_lookup d' k
  end.

(** *** [repr] and [str] *)

Definition hexdigit (n : N) : ascii :=
  match String.get (N.to_nat n) "0123456789abcdef" with
  | Some c => c
  | None => "0"%char
  end.

(** [\xhh] *)
Definition hex_escape (c : ascii) : string :=
  let n := N_of_ascii c in
  String "\"%char (String "x"%char
    (String (hexdigit (n / 16)%N) (String (hexdigit (n mod 16)%N) EmptyString))).

(** Code points below 256 that [repr] copies: not a control character, not
    the no-break space (0xa0) and not the soft hyphen (0xad). *)
Definition printable (c : ascii) : bool :=
  let n := N_of_ascii c in
  ((32 <=? n) && (n <? 127) || (161 <=? n) && negb (n =? 173))%N.

Fixpoint occurs (q : ascii) (s : string) : bool :=
  match s with
  | EmptyString => false
  | String c s' => Ascii.eqb c q || occurs q s'
  end.

Definition repr_char (quote c : ascii) : string :=
  if Ascii.eqb c quote || Ascii.eqb c "\"%char then
    String "\"%char (String c EmptyString)
  else if Ascii.eqb c "009"%char then "\t"
  else if Ascii.eqb c "010"%char then "\n"
  else if Ascii.eqb c "013"%char then "\r"
  else if printable c then String c EmptyString
  else hex_escape c.

Fixpoint repr_chars (quote : ascii) (s : string) : string :=
  match s with
  | EmptyString => EmptyString
  | String c s' => repr_char quote c +:+ repr_chars quote s'
  end.

(** [repr(s)] of a str: single quotes, unless the string has a single quote
    and no double quote (character 34). *)
Definition repr_str (s : string) : string :=
  let quote :=
    if occurs "'"%char s && negb (occurs "034"%char s) then "034"%char
    else "'"%char in
  String quote (repr_chars quote s +:+ String quote EmptyString).

(** The classes of the exceptions that occur. *)
Inductive exn_class : Type :=
  | ValueError
  | RuntimeError
  | KeyError
  | NotImplementedError
  | TypeError
  | IndexError
  | RecursionError.

Definition exn_class_eqb (a b : exn_class) : bool :=
  match a, b with
  | ValueError, ValueError
  | RuntimeError, RuntimeError
  | KeyError, KeyError
  | NotImplementedError, NotImplementedError
  | TypeError, TypeError
  | IndexError, IndexError
  | RecursionError, RecursionError => true
  | _, _ => false
  end.

(** What the interpreter allows when a value is turned into text:
    [max_str_digits] is [sys.get_int_max_str_digits()], 0 for no limit;
    [repr_room] is how deep the calls of [repr] can still nest, which is what
    is left up to [sys.getrecursionlimit()]. *)
Record limits : Type := Limits {
  max_str_digits : Z;
  repr_room : nat
}.

(** The limits an interpreter starts with. *)
Definition default_limits : limits :=
  {| max_str_digits := 4300; repr_room := 1000 |}.

(** [str(n)] of an int.  Under a limit, the interpreter refuses to convert
    an int of more digits than the limit, and raises [ValueError]. *)
Definition int_str (max_digits : Z) (n : Z) : string + exn_class :=
  if (0 <? max_digits) && (10 ^ max_digits <=? Z.abs n) then inr ValueError
  else inl (pretty n).

(** The texts of all the items, or the exception of the first one, from the
    left, whose conversion fails. *)
Fixpoint all_texts (l : list (string + exn_class))
  : list string + exn_class :=
  match l with
  | [] => inl []
  | inr c :: _ => inr c
  | inl x :: l' =>
      match all_texts l' with
      | inl xs => inl (x :: xs)
      | inr c => inr c
      end
  end.

(** [repr(v)], with room for [room] nested calls: each call takes one, and
    [RecursionError] is raised when none is left. *)
Fixpoint py_repr (max_digits : Z) (room : nat) (v : pyval)
  : string + exn_class :=
  match room with
  | O => inr RecursionError
  | S room' =>
      match v with
      | VNone => inl "None"
      | VBool true => inl "True"
      | VBool false => inl "False"
      | VInt n => int_str max_digits n
      | VStr s => inl (repr_str s)
      | VList l =>
          match all_texts (map (py_repr max_digits room') l) with
          | inl items => inl ("[" +:+ String.concat ", " items +:+ "]")
          | inr c => inr c
          end
      | VDict d =>
          match all_texts
                  (map (fun kv =>
                          match py_repr max_digits room' (snd kv) with
                          | inl item =>
                              inl (repr_str (fst kv) +:+ ": " +:+ item)
                          | inr c => inr c
                          end) d) with
          | inl items => inl ("{" +:+ String.concat ", " items +:+ "}")
          | inr c => inr c
          end
      end
  end.

(** [str(v)], which is also what [f"{v}"] inserts: a str as it is, without
    a call of [repr]. *)
Definition py_str (lim : limits) (v : pyval) : string + exn_class :=
  match v with
  | VStr s => inl s
  | _ => py_repr (max_str_digits lim) (repr_room lim) v
  end.

(** [case "lit":] of a [match] statement: the subject equals the literal. *)
Definition matches_str (v : pyval) (lit : string) : bool :=
  match v with
  | VStr s => String.eqb s lit
  | _ => false
  end.

(** *** Subscription [c[k]] *)

(** An index: an int, or a bool (a subclass of int). *)
Definition as_index (k : pyval) : option Z :=
  match k with
  | VInt n => Some n
  | VBool b => Some (if b then 1 else 0)
  | _ => None
  end.

(** A negative index counts from the end. *)
Definition norm_index (len i : Z) : option nat :=
  let j := if i <? 0 then i + len else i in
  if (0 <=? j) && (j <? len) then Some (Z.to_nat j) else None.

(** [c[k]]: the value, or the class of the exception the interpreter raises.
    The keys of a dict are strings, so another hashable key is absent
    ([KeyError]) and a list or a dict as key is unhashable ([TypeError]). *)
Definition subscript (c k : pyval) : pyval + exn_class :=
  match c with
  | VDict d =>
      match k with
      | VStr s =>
          match dict_lookup d s with
          | Some v => inl v
          | None => inr KeyError
          end
      | VNone | VBool _ | VInt _ => inr KeyError
      | VList _ | VDict _ => inr TypeError
      end
  | VList l =>
      match as_index k with
      | Some i =>
          match norm_index (Z.of_nat (List.length l)) i with
          | Some j =>
              match nth_error l j with
              | Some v => inl v
              | None => inr IndexError
              end
          | None => inr IndexError
          end
      | None => inr TypeError
      end
  | VStr s =>
      match as_index k with
      | Some i =>
          match norm_index (Z.of_nat (String.length s)) i with
          | Some j =>
              match String.get j s with
              | Some ch => inl (VStr (String ch EmptyString))
              | None => inr IndexError
              end
          | None => inr IndexError
          end
      | None => inr TypeError
      end
  | VNone | VBool _ | VInt _ => inr TypeError
  end.

End Py.

Export Py.

(** ** The world and the monad *)

(** What the two functions do to their surroundings, in the order they do
    it: a lookup with key [key] in the payload or in a value found in it,
    a call of [os.getenv], a call of [logger.error]. *)
Inductive event : Type :=
  | EvLookup (key : pyval)
  | EvGetenv (name : string)
  | EvLogError (msg : string).

(** [w_payload] is the dict object the caller passes as [faasr_payload]
    (the parameter is a reference to it); [w_environ] is [os.environ];
    [w_limits] is what the interpreter allows at the time of the call. *)
Record world : Type := World {
  w_payload : pydict;
  w_environ : gmap string string;
  w_trace : list event;
  w_limits : limits
}.

(** An exception: [Raised c msg] is [raise c(msg)] of the source, [Builtin c]
    is raised by the interpreter (a failed subscription); the text of the
    latter is not modelled. *)
Inductive exn : Type :=
  | Raised (c : exn_class) (msg : string)
  | Builtin (c : exn_class).

Definition class_of (e : exn) : exn_class :=
  match e with
  | Raised c _ => c
  | Builtin c => c
  end.

Inductive outcome (A : Type) : Type :=
  | Return (a : A)
  | Raise (e : exn).

Arguments Return {A} a.
Arguments Raise {A} e.

Definition M (A : Type) : Type := world -> outcome A * world.

#[global] Instance M_ret : MRet M := fun A a w => (Return a, w).

#[global] Instance M_bind : MBind M := fun A B f m w =>
  match m w with
  | (Return a, w') => f a w'
  | (Raise e, w') => (Raise e, w')
  end.

Definition raise {A : Type} (e : exn) : M A := fun w => (Raise e, w).

(** The world once [e] has happened. *)
Definition record (e : event) (w : world) : world :=
  {| w_payload := w_payload w;
     w_environ := w_environ w;
     w_trace := w_trace w ++ [e];
     w_limits := w_limits w |}.

Definition emit (e : event) : M unit := fun w => (Return tt, record e w).

(** [try: body / except c: handler] *)
Definition try_except {A : Type} (c : exn_class) (body handler : M A) : M A :=
  fun w =>
    match body w with
    | (Raise e, w') =>
        if exn_class_eqb (class_of e) c then handler w' else (Raise e, w')
    | r => r
    end.

(** [if c: body], where [body] ends in a [raise]. *)
Definition when_ (c : bool) (body : M unit) : M unit :=
  if c then body else mret tt.

(** The variable [faasr_payload]: the dict it refers to. *)
Definition faasr_payload : M pydict := fun w => (Return (w_payload w), w).

(** [c[k]] *)
Definition getitem (c k : pyval) : M pyval :=
  emit (EvLookup k);;
  match subscript c k with
  | inl v => mret v
  | inr cls => raise (Builtin cls)
  end.

(** [d.get(k, default)] on a dict *)
Definition dict_get (d : pydict) (k : string) (default : pyval) : M pyval :=
  emit (EvLookup (VStr k));;
  mret (match dict_lookup d k with
        | Some v => v
        | None => default
        end).

(** [os.getenv(name)]: the value, or [None]. *)
Definition os_getenv (name : string) : M (option string) := fun w =>
  (Return (w_environ w !! name), record (EvGetenv name) w).

Definition logger_error (msg : string) : M unit := emit (EvLogError msg).

(** The text that [{v}] puts in an f-string; the exception of a failed
    conversion is the interpreter's. *)
Definition format_value (v : pyval) : M string := fun w =>
  match py_str (w_limits w) v with
  | inl text => (Return text, w)
  | inr cls => (Raise (Builtin cls), w)
  end.

(** ** The two functions *)

Definition faasr_secret_gh (secret_name : string) : M string :=
  secret_value ← os_getenv secret_name;
  match secret_value with
  | None =>
      let err_msg :=
        "faasr_secret: Secret '" +:+ secret_name +:+
        "' not found in environment variables" in
      logger_error err_msg;;
      raise (Raised KeyError err_msg)
  | Some secret_value => mret secret_value
  end.

Definition faasr_secret (secret_name : string) : M string :=
  (* Validate secret name *)
  when_ (negb (truthy (VStr secret_name)))
    (let err_msg := "faasr_secret: secret_name cannot be empty" in
     logger_error err_msg;;
     raise (Raised ValueError err_msg));;
  (* Get current function name *)
  payload ← faasr_payload;
  current_action ← dict_get payload "FunctionInvoke" (VStr "");
  when_ (negb (truthy current_action))
    (let err_msg :=
       "faasr_secret: Cannot determine current function from payload" in
     logger_error err_msg;;
     raise (Raised RuntimeError err_msg));;
  (* Get action configuration *)
  action_config ←
    try_except KeyError
      (payload ← faasr_payload;
       action_list ← getitem (VDict payload) (VStr "ActionList");
       getitem action_list current_action)
      (function_text ← format_value current_action;
       let err_msg :=
         "faasr_secret: Function " +:+ function_text +:+
         " not found in ActionList" in
       logger_error err_msg;;
       raise (Raised RuntimeError err_msg));
  (* Get server name *)
  server_name ←
    try_except KeyError
      (getitem action_config (VStr "FaaSServer"))
      (function_text ← format_value current_action;
       let err_msg :=
         "faasr_secret: FaaSServer not found for function " +:+
         function_text in
       logger_error err_msg;;
       raise (Raised RuntimeError err_msg));
  (* Get server type *)
  server_type ←
    try_except KeyError
      (payload ← faasr_payload;
       compute_servers ← getitem (VDict payload) (VStr "ComputeServers");
       server_config ← getitem compute_servers server_name;
       getitem server_config (VStr "FaaSType"))
      (server_text ← format_value server_name;
       let err_msg :=
         "faasr_secret: Compute server " +:+ server_text +:+
         " not found or missing FaaSType" in
       logger_error err_msg;;
       raise (Raised RuntimeError err_msg));
  (* Handle different compute server types *)
  if matches_str server_type "GitHubActions" then
    faasr_secret_gh secret_name
  else
    (* Other compute servers are not yet supported *)
    type_text ← format_value server_type;
    let err_msg :=
      "faasr_secret: Compute server type '" +:+ type_text +:+
      "' is not supported. " +:+
      "Only GitHubActions is currently supported." in
    logger_error err_msg;;
    raise (Raised NotImplementedError err_msg).

(** ** Observations of a run *)

Definition result {A : Type} (m : M A) (w : world) : outcome A := fst (m w).

Definition after {A : Type} (m : M A) (w : world) : world := snd (m w).

(** The names [os.getenv] was called with, in order. *)
Definition getenv_calls (t : list event) : list string :=
  omap (fun e => match e with EvGetenv n => Some n | _ => None end) t.

(** The keys looked up in the payload, in order. *)
Definition payload_lookups (t : list event) : list pyval :=
  omap (fun e => match e with EvLookup k => Some k | _ => None end) t.

(** The lookups of a resolution that succeeds, for function [f] on server
    [s]. *)
Definition resolution_lookups (f s : string) : list event :=
  [ EvLookup (VStr "FunctionInvoke");
    EvLookup (VStr "ActionList"); EvLookup (VStr f);
    EvLookup (VStr "FaaSServer");
    EvLookup (VStr "ComputeServers"); EvLookup (VStr s);
    EvLookup (VStr "FaaSType") ].

(** The text [part] occurs in [msg]. *)
Definition mentions (msg part : string) : Prop :=
  exists pre post : string, msg = pre +:+ part +:+ post.

(** The payload and the environment of [w'] are those of [w], and so are
    the limits of the interpreter. *)
Definition same_store (w w' : world) : Prop :=
  w_payload w' = w_payload w /\ w_environ w' = w_environ w /\
  w_limits w' = w_limits w.

(** A computation that only reads the payload and the environment, and one
    whose outcome is a function of the two. *)
Definition read_only {A : Type} (m : M A) : Prop :=
  forall w, same_store w (after m w).

Definition store_determined {A : Type} (m : M A) : Prop :=
  forall w w', same_store w w' -> result m w' = result m w.

(** ** The payload of the data model *)

(** A field that is a string, a field that is a mapping. *)
Definition field_str (d : pydict) (k : string) : option string :=
  match dict_lookup d k with
  | Some (VStr s) => Some s
  | _ => None
  end.

Definition field_map (d : pydict) (k : string) : option pydict :=
  match dict_lookup d k with
  | Some (VDict m) => Some m
  | _ => None
  end.

(** The current function: [FunctionInvoke], when it is there and not empty. *)
Definition current_function (p : pydict) : option string :=
  match field_str p "FunctionInvoke" with
  | Some f => if String.eqb f "" then None else Some f
  | None => None
  end.

(** The action configuration of function [f]. *)
Definition action_config_of (p : pydict) (f : string) : option pydict :=
  al ← field_map p "ActionList"; field_map al f.

(** The compute server of function [f]. *)
Definition server_of (p : pydict) (f : string) : option string :=
  cfg ← action_config_of p f; field_str cfg "FaaSServer".

(** The platform type of server [s]. *)
Definition type_of_server (p : pydict) (s : string) : option string :=
  cs ← field_map p "ComputeServers"; sc ← field_map cs s; field_str sc "FaaSType".

(** The payload names a current function [f], run on server [s] of type [t]. *)
Definition resolves_to (p : pydict) (f s t : string) : Prop :=
  current_function p = Some f /\ server_of p f = Some s /\
  type_of_server p s = Some t.

(** [ActionList] has no entry for [f]: it is missing, or a mapping without
    the key. *)
Definition lacks_action (p : pydict) (f : string) : bool :=
  match dict_lookup p "ActionList" with
  | None => true
  | Some (VDict al) =>
      match dict_lookup al f with
      | None => true
      | Some _ => false
      end
  | Some _ => false
  end.

(** The payload [{FunctionInvoke: f, ActionList: {f: {FaaSServer: s}},
    ComputeServers: {s: {FaaSType: t}}}]. *)
Definition shape_payload (f s t : string) : pydict :=
  [ ("FunctionInvoke", VStr f);
    ("ActionList", VDict [ (f, VDict [ ("FaaSServer", VStr s) ]) ]);
    ("ComputeServers", VDict [ (s, VDict [ ("FaaSType", VStr t) ]) ]) ].

(** The fields that are present have the types of the data model; any of
    them may be missing. *)
Definition is_str (v : pyval) : bool :=
  match v with
  | VStr _ => true
  | _ => false
  end.

Definition if_present (ok : pyval -> bool) (o : option pyval) : bool :=
  match o with
  | Some v => ok v
  | None => true
  end.

(** A mapping, each of whose values is a mapping accepted by [ok]. *)
Definition mapping_of (ok : pydict -> bool) (v : pyval) : bool :=
  match v with
  | VDict m =>
      forallb (fun kv => match snd kv with
                         | VDict c => ok c
                         | _ => false
                         end) m
  | _ => false
  end.

Definition shaped (p : pydict) : bool :=
  if_present is_str (dict_lookup p "FunctionInvoke") &&
  if_present
    (mapping_of (fun cfg => if_present is_str (dict_lookup cfg "FaaSServer")))
    (dict_lookup p "ActionList") &&
  if_present
    (mapping_of (fun sc => if_present is_str (dict_lookup sc "FaaSType")))
    (dict_lookup p "ComputeServers").

(** ** The messages of the source *)

Definition msg_empty_name : string :=
  "faasr_secret: secret_name cannot be empty".

Definition msg_no_function : string :=
  "faasr_secret: Cannot determine current function from payload".

Definition msg_no_action (f : string) : string :=
  "faasr_secret: Function " +:+ f +:+ " not found in ActionList".

Definition msg_no_server (f : string) : string :=
  "faasr_secret: FaaSServer not found for function " +:+ f.

Definition msg_no_type (s : string) : string :=
  "faasr_secret: Compute server " +:+ s +:+ " not found or missing FaaSType".

Definition msg_unsupported (t : string) : string :=
  "faasr_secret: Compute server type '" +:+ t +:+
  "' is not supported. Only GitHubActions is currently supported.".

Definition msg_not_found (name : string) : string :=
  "faasr_secret: Secret '" +:+ name +:+ "' not found in environment variables".

(** ** The resolution steps of the specification

    Written after section 4 of the specification, on the payload of the data
    model, to compare [faasr_secret] with. *)

(** 4.2, the environment-variable getter. *)
Definition get_env_secret (environ : gmap string string) (name : string)
  : outcome string :=
  match environ !! name with
  | Some v => Return v
  | None => Raise (Raised KeyError (msg_not_found name))
  end.

(** 4.1, steps 1 to 6 in their order. *)
Definition resolve_secret (p : pydict) (secret_name : string)
    (environ : gmap string string) : outcome string :=
  if String.eqb secret_name "" then
    Raise (Raised ValueError msg_empty_name)
  else
    match current_function p with
    | None => Raise (Raised RuntimeError msg_no_function)
    | Some f =>
        match action_config_of p f with
        | None => Raise (Raised RuntimeError (msg_no_action f))
        | Some cfg =>
            match field_str cfg "FaaSServer" with
            | None => Raise (Raised RuntimeError (msg_no_server f))
            | Some s =>
                match type_of_server p s with
                | None => Raise (Raised RuntimeError (msg_no_type s))
                | Some t =>
                    if String.eqb t "GitHubActions" then
                      get_env_secret environ secret_name
                    else Raise (Raised NotImplementedError (msg_unsupported t))
                end
            end
        end
    end.

(** ** The scenarios of the specification *)

(** An environment in which [MY_SECRET] is set; [PADDED] has a value with
    blanks around it. *)
Definition scenario_environ : gmap string string :=
  <[ "PADDED" := "  abc 123 " ]> {[ "MY_SECRET" := "abc123" ]}.

(** Function [f1] on server [s1], whose platform type is [t]. *)
Definition scenario_world (t : string) : world :=
  World (shape_payload "f1" "s1" t) scenario_environ [] default_limits.

(** The same shape with the empty string as function name. *)
Definition empty_function_world : world :=
  World (shape_payload "" "s1" "GitHubActions") scenario_environ []
        default_limits.

(** [ActionList] has an entry for [f2] only. *)
Definition no_action_world : world :=
  World [ ("FunctionInvoke", VStr "f1");
          ("ActionList", VDict [ ("f2", VDict [ ("FaaSServer", VStr "s1") ]) ]) ]
        scenario_environ [] default_limits.

(** [FunctionInvoke] is empty and there is no [ActionList]. *)
Definition no_function_world : world :=
  World [ ("FunctionInvoke", VStr "") ] scenario_environ [] default_limits.

(** A payload outside the data model: [ActionList] is a string. *)
Definition ill_typed_world : world :=
  World [ ("FunctionInvoke", VStr "f1"); ("ActionList", VStr "f1") ]
        scenario_environ [] default_limits.

(** ** Further observations *)

(** The messages [logger.error] was called with, in order. *)
Definition log_calls (t : list event) : list string :=
  omap (fun e => match e with EvLogError m => Some m | _ => None end) t.

(** The message of an exception the source raises itself. *)
Definition own_message {A : Type} (o : outcome A) : list string :=
  match o with
  | Raise (Raised _ msg) => [msg]
  | _ => []
  end.

(** An outcome that [faasr_secret_gh] produces: a value, or its
    [KeyError]. *)
Definition from_environ {A : Type} (o : outcome A) : bool :=
  match o with
  | Return _ => true
  | Raise (Raised KeyError _) => true
  | Raise _ => false
  end.

(** The exception was raised by the interpreter, not by a [raise]. *)
Definition is_builtin {A : Type} (o : outcome A) : bool :=
  match o with
  | Raise (Builtin _) => true
  | _ => false
  end.

(** The exception a run ends in, if it does. *)
Definition failure {A : Type} (o : outcome A) : option exn :=
  match o with
  | Return _ => None
  | Raise e => Some e
  end.

(** The world with another environment. *)
Definition set_environ (environ : gmap string string) (w : world) : world :=
  {| w_payload := w_payload w; w_environ := environ; w_trace := w_trace w;
     w_limits := w_limits w |}.

(** [d.get(k, default)], the value. *)
Definition get_or (d : pydict) (k : string) (default : pyval) : pyval :=
  match dict_lookup d k with
  | Some v => v
  | None => default
  end.

(** There is no platform type for server [s]: [ComputeServers] is missing,
    or a mapping without [s], or the configuration of [s] is a mapping
    without [FaaSType]. *)
Definition lacks_type (p : pydict) (s : string) : bool :=
  match dict_lookup p "ComputeServers" with
  | None => true
  | Some (VDict cs) =>
      match dict_lookup cs s with
      | None => true
      | Some (VDict sc) =>
          match dict_lookup sc "FaaSType" with
          | None => true
          | Some _ => false
          end
      | Some _ => false
      end
  | Some _ => false
  end.

(** The values that the resolution reaches have the types of the data
    model: [FunctionInvoke], when it is truthy, is a string; [ActionList],
    its entry for the function, [ComputeServers] and its entry for the
    server are mappings; [FaaSServer] and [FaaSType] are strings.  Any of
    them may be missing, and what lies past the first missing one is not
    looked at. *)
Definition consulted_typed (p : pydict) (secret_name : string) : bool :=
  if String.eqb secret_name "" then true
  else
    let current := get_or p "FunctionInvoke" (VStr "") in
    if negb (truthy current) then true
    else
      match current with
      | VStr f =>
          match dict_lookup p "ActionList" with
          | None => true
          | Some (VDict al) =>
              match dict_lookup al f with
              | None => true
              | Some (VDict cfg) =>
                  match dict_lookup cfg "FaaSServer" with
                  | None => true
                  | Some (VStr s) =>
                      match dict_lookup p "ComputeServers" with
                      | None => true
                      | Some (VDict cs) =>
                          match dict_lookup cs s with
                          | None => true
                          | Some (VDict sc) =>
                              if_present is_str (dict_lookup sc "FaaSType")
                          | Some _ => false
                          end
                      | Some _ => false
                      end
                  | Some _ => false
                  end
              | Some _ => false
              end
          | Some _ => false
          end
      | _ => false
      end.

(** [FunctionInvoke] is empty and [ActionList] is a number. *)
Definition untyped_rest_world : world :=
  World [ ("FunctionInvoke", VStr ""); ("ActionList", VInt 5) ]
        scenario_environ [] default_limits.

(** The value of [FaaSType] for server [s], whatever its type. *)
Definition type_value_of (p : pydict) (s : string) : option pyval :=
  cs ← field_map p "ComputeServers"; sc ← field_map cs s;
  dict_lookup sc "FaaSType".

Definition is_mapping (v : pyval) : bool :=
  match v with
  | VDict _ => true
  | _ => false
  end.

(** *** Disciplines of a computation *)

(** A [KeyError] raised by a [raise] of the source. *)
Definition own_key_error {A : Type} (o : outcome A) : bool :=
  match o with
  | Raise (Raised KeyError _) => true
  | _ => false
  end.

(** [m] does not call [os.getenv] and raises no [KeyError] of its own. *)
Definition off_environ {A : Type} (m : M A) : Prop :=
  forall w,
    getenv_calls (w_trace (after m w)) = getenv_calls (w_trace w) /\
    own_key_error (result m w) = false.

(** What [m] gives comes from the environment: a value is the one stored
    under [name], a [KeyError] of its own says that [name] is not set, and
    [os.getenv] is called in these two cases only, once, with [name]. *)
Definition environ_outcome (name : string) (m : M string) : Prop :=
  forall w,
    getenv_calls (w_trace (after m w)) =
      (getenv_calls (w_trace w) ++
       if from_environ (result m w) then [name] else [])%list /\
    match result m w with
    | Return v => w_environ w !! name = Some v
    | Raise (Raised KeyError msg) =>
        w_environ w !! name = None /\ msg = msg_not_found name
    | Raise _ => True
    end.

(** The [KeyError] of a failed lookup, as the interpreter raises it. *)
Definition raw_key_error {A : Type} (o : outcome A) : bool :=
  match o with
  | Raise (Builtin KeyError) => true
  | _ => false
  end.

(** No [KeyError] of a failed lookup gets out of [m]. *)
Definition catches_key_errors {A : Type} (m : M A) : Prop :=
  forall w, raw_key_error (result m w) = false.

(** [m] raises exceptions of the interpreter only. *)
Definition builtin_raises {A : Type} (m : M A) : Prop :=
  forall w, own_message (result m w) = [].

(** [m] logs the message of each exception it raises itself, just before
    it raises it, and logs nothing else. *)
Definition logs_own_raises {A : Type} (m : M A) : Prop :=
  forall w,
    log_calls (w_trace (after m w)) =
      (log_calls (w_trace w) ++ own_message (result m w))%list /\
    forall c msg, result m w = Raise (Raised c msg) ->
      exists t, w_trace (after m w) = (t ++ [EvLogError msg])%list.

(** [m] does not look at the environment. *)
Definition environ_blind {A : Type} (m : M A) : Prop :=
  forall w environ,
    m (set_environ environ w) = (fst (m w), set_environ environ (snd (m w))).

(** What [m] leaves in the trace and the exception it raises depend on the
    environment only through whether [name] is set. *)
Definition value_blind (name : string) (m : M string) : Prop :=
  forall w environ,
    (w_environ w !! name = None <-> environ !! name = None) ->
    w_trace (after m (set_environ environ w)) = w_trace (after m w) /\
    failure (result m (set_environ environ w)) = failure (result m w).

(** *** More payloads *)

(** The configuration of [f1] has no [FaaSServer]. *)
Definition no_server_world : world :=
  World [ ("FunctionInvoke", VStr "f1");
          ("ActionList", VDict [ ("f1", VDict []) ]) ]
        scenario_environ [] default_limits.

(** The configuration of [s1] has no [FaaSType]. *)
Definition no_type_world : world :=
  World [ ("FunctionInvoke", VStr "f1");
          ("ActionList", VDict [ ("f1", VDict [ ("FaaSServer", VStr "s1") ]) ]);
          ("ComputeServers", VDict [ ("s1", VDict []) ]) ]
        scenario_environ [] default_limits.

(** [FunctionInvoke] is [None]. *)
Definition none_function_world : world :=
  World [ ("FunctionInvoke", VNone);
          ("ActionList", VDict [ ("f1", VDict [ ("FaaSServer", VStr "s1") ]) ]) ]
        scenario_environ [] default_limits.

(** [FaaSType] is an int of 4301 digits. *)
Definition huge_type_world : world :=
  World [ ("FunctionInvoke", VStr "f1");
          ("ActionList", VDict [ ("f1", VDict [ ("FaaSServer", VStr "s1") ]) ]);
          ("ComputeServers",
           VDict [ ("s1", VDict [ ("FaaSType", VInt (10 ^ 4300)) ]) ]) ]
        scenario_environ [] default_limits.

(** [FaaSType] is the number 3. *)
Definition numeric_type_world : world :=
  World [ ("FunctionInvoke", VStr "f1");
          ("ActionList", VDict [ ("f1", VDict [ ("FaaSServer", VStr "s1") ]) ]);
          ("ComputeServers", VDict [ ("s1", VDict [ ("FaaSType", VInt 3) ]) ]) ]
        scenario_environ [] default_limits.

(** ** Running the monad *)

Lemma run_bind {A B : Type} (m : M A) (f : A -> M B) (w : world) :
  (m ≫= f) w =
  match m w with
  | (Return a, w') => f a w'
  | (Raise e, w') => (Raise e, w')
  end.
Proof. reflexivity. Qed.

Lemma run_ret {A : Type} (a : A) (w : world) :
  (mret a : M A) w = (Return a, w).
Proof. reflexivity. Qed.

Lemma run_raise {A : Type} (e : exn) (w : world) :
  @raise A e w = (Raise e, w).
Proof. reflexivity. Qed.

Lemma run_emit (e : event) (w : world) : emit e w = (Return tt, record e w).
Proof. reflexivity. Qed.

Lemma run_logger_error (msg : string) (w : world) :
  logger_error msg w = (Return tt, record (EvLogError msg) w).
Proof. reflexivity. Qed.

Lemma run_faasr_payload (w : world) :
  faasr_payload w = (Return (w_payload w), w).
Proof. reflexivity. Qed.

Lemma run_os_getenv (name : string) (w : world) :
  os_getenv name w = (Return (w_environ w !! name), record (EvGetenv name) w).
Proof. reflexivity. Qed.

Lemma run_when_true (body : M unit) (w : world) : when_ true body w = body w.
Proof. reflexivity. Qed.

Lemma run_when_false (body : M unit) (w : world) :
  when_ false body w = (Return tt, w).
Proof. reflexivity. Qed.

Lemma run_getitem (c k : pyval) (w : world) :
  getitem c k w =
  match subscript c k with
  | inl v => (Return v, record (EvLookup k) w)
  | inr cls => (Raise (Builtin cls), record (EvLookup k) w)
  end.
Proof.
  unfold getitem. rewrite run_bind, run_emit.
  destruct (subscript c k); reflexivity.
Qed.

Lemma run_dict_get (d : pydict) (k : string) (dflt : pyval) (w : world) :
  dict_get d k dflt w =
  (Return (match dict_lookup d k with Some v => v | None => dflt end),
   record (EvLookup (VStr k)) w).
Proof. reflexivity. Qed.

Lemma run_try_except {A : Type} (c : exn_class) (body handler : M A)
    (w : world) :
  try_except c body handler w =
  match body w with
  | (Raise e, w') =>
      if exn_class_eqb (class_of e) c then handler w' else (Raise e, w')
  | r => r
  end.
Proof. reflexivity. Qed.

Lemma payload_record (e : event) (w : world) :
  w_payload (record e w) = w_payload w.
Proof. reflexivity. Qed.

Lemma environ_record (e : event) (w : world) :
  w_environ (record e w) = w_environ w.
Proof. reflexivity. Qed.

Lemma trace_record (e : event) (w : world) :
  w_trace (record e w) = (w_trace w ++ [e])%list.
Proof. reflexivity. Qed.

Lemma subscript_dict_str (d : pydict) (k : string) :
  subscript (VDict d) (VStr k) =
  match dict_lookup d k with
  | Some v => inl v
  | None => inr KeyError
  end.
Proof. reflexivity. Qed.

Lemma truthy_str (s : string) : truthy (VStr s) = negb (String.eqb s "").
Proof. reflexivity. Qed.

Lemma matches_str_str (s lit : string) :
  matches_str (VStr s) lit = String.eqb s lit.
Proof. reflexivity. Qed.

Lemma py_str_str (lim : limits) (s : string) : py_str lim (VStr s) = inl s.
Proof. reflexivity. Qed.

Lemma limits_record (e : event) (w : world) :
  w_limits (record e w) = w_limits w.
Proof. reflexivity. Qed.

Lemma run_format_value (v : pyval) (w : world) :
  format_value v w =
  match py_str (w_limits w) v with
  | inl text => (Return text, w)
  | inr cls => (Raise (Builtin cls), w)
  end.
Proof. reflexivity. Qed.

Create Rewrite HintDb run.

#[local] Hint Rewrite @run_bind @run_ret @run_raise run_emit run_logger_error
  run_faasr_payload run_os_getenv run_when_true run_when_false run_getitem
  run_dict_get @run_try_except payload_record environ_record
  subscript_dict_str truthy_str matches_str_str run_format_value
  limits_record py_str_str : run.

(** Symbolic execution: run as far as the equations go, let [tac] supply
    what is known of the payload and the environment, and go on. *)
Ltac run_with tac :=
  repeat (progress (autorewrite with run; cbv beta iota; tac;
                    cbn [negb exn_class_eqb class_of fst snd])).

Ltac run := run_with idtac.

(** What is known of the lookups, the names and the environment. *)
Ltac use_known :=
  repeat match goal with
         | H : dict_lookup _ _ = _ |- _ => rewrite H
         | H : String.eqb _ _ = _ |- _ => rewrite H
         | H : _ !! _ = _ |- _ => rewrite H
         end.

Ltac run_known := run_with use_known.

(** ** Facts on the conversion to text *)

Lemma int_str_short (max_digits n : Z) :
  Z.abs n < 10 ^ max_digits -> int_str max_digits n = inl (pretty n).
Proof.
  intros Hn. unfold int_str.
  destruct (10 ^ max_digits <=? Z.abs n) eqn:Hle;
    [apply Z.leb_le in Hle; lia|].
  rewrite andb_false_r. reflexivity.
Qed.

Lemma int_str_long (max_digits n : Z) :
  0 < max_digits -> 10 ^ max_digits <= Z.abs n ->
  int_str max_digits n = inr ValueError.
Proof.
  intros Hmax Hn. unfold int_str.
  apply Z.ltb_lt in Hmax. apply Z.leb_le in Hn. rewrite Hmax, Hn.
  reflexivity.
Qed.

Lemma int_str_no_limit (n : Z) : int_str 0 n = inl (pretty n).
Proof. reflexivity. Qed.

Lemma int_str_error (max_digits n : Z) (c : exn_class) :
  int_str max_digits n = inr c -> c = ValueError.
Proof.
  unfold int_str.
  destruct ((0 <? max_digits) && (10 ^ max_digits <=? Z.abs n));
    congruence.
Qed.

Lemma all_texts_inr (l : list (string + exn_class)) (c : exn_class) :
  all_texts l = inr c -> In (inr c) l.
Proof.
  induction l as [|[x|c'] l IH]; simpl; [discriminate| |].
  - destruct (all_texts l); [discriminate|]. intros [= ->]. auto.
  - intros [= ->]. auto.
Qed.

(** The conversion fails in two ways only. *)
Lemma py_repr_error (max_digits : Z) (room : nat) (v : pyval)
    (c : exn_class) :
  py_repr max_digits room v = inr c -> c = ValueError \/ c = RecursionError.
Proof.
  revert v c. induction room as [|room IH]; intros v c; simpl.
  { intros [= <-]. auto. }
  destruct v as [|[]|n|s|l|d]; try discriminate.
  - intros H. left. eapply int_str_error, H.
  - destruct (all_texts _) eqn:Hall; [discriminate|]. intros [= ->].
    apply all_texts_inr, in_map_iff in Hall as (x & Hx & _). eauto.
  - destruct (all_texts _) eqn:Hall; [discriminate|]. intros [= ->].
    apply all_texts_inr, in_map_iff in Hall as ([k x] & Hx & _).
    simpl in Hx. destruct (py_repr max_digits room x) eqn:Hr; [discriminate|].
    injection Hx as ->. eauto.
Qed.

Lemma py_str_error (lim : limits) (v : pyval) (c : exn_class) :
  py_str lim v = inr c -> c = ValueError \/ c = RecursionError.
Proof.
  destruct v; simpl; try discriminate; apply py_repr_error.
Qed.

(** ** Facts on the data model *)

Lemma field_str_Some (d : pydict) (k s : string) :
  field_str d k = Some s -> dict_lookup d k = Some (VStr s).
Proof.
  unfold field_str. destruct (dict_lookup d k) as [[]|]; congruence.
Qed.

Lemma field_map_Some (d : pydict) (k : string) (m : pydict) :
  field_map d k = Some m -> dict_lookup d k = Some (VDict m).
Proof.
  unfold field_map. destruct (dict_lookup d k) as [[]|]; congruence.
Qed.

Lemma current_function_Some (p : pydict) (f : string) :
  current_function p = Some f ->
  dict_lookup p "FunctionInvoke" = Some (VStr f) /\ String.eqb f "" = false.
Proof.
  unfold current_function.
  destruct (field_str p "FunctionInvoke") as [f'|] eqn:Hfi; [|discriminate].
  destruct (String.eqb f' "") eqn:Hne; [discriminate|].
  intros [= ->]. auto using field_str_Some.
Qed.

Lemma action_config_of_Some (p : pydict) (f : string) (cfg : pydict) :
  action_config_of p f = Some cfg ->
  exists al, dict_lookup p "ActionList" = Some (VDict al) /\
             dict_lookup al f = Some (VDict cfg).
Proof.
  unfold action_config_of. intros H.
  destruct (field_map p "ActionList") as [al|] eqn:Hal; [|discriminate].
  exists al. auto using field_map_Some.
Qed.

Lemma server_of_Some (p : pydict) (f s : string) :
  server_of p f = Some s ->
  exists al cfg, dict_lookup p "ActionList" = Some (VDict al) /\
                 dict_lookup al f = Some (VDict cfg) /\
                 dict_lookup cfg "FaaSServer" = Some (VStr s).
Proof.
  unfold server_of. intros H.
  destruct (action_config_of p f) as [cfg|] eqn:Hc; [|discriminate].
  apply action_config_of_Some in Hc as (al & ? & ?).
  exists al, cfg. auto using field_str_Some.
Qed.

Lemma type_of_server_Some (p : pydict) (s t : string) :
  type_of_server p s = Some t ->
  exists cs sc, dict_lookup p "ComputeServers" = Some (VDict cs) /\
                dict_lookup cs s = Some (VDict sc) /\
                dict_lookup sc "FaaSType" = Some (VStr t).
Proof.
  unfold type_of_server. intros H.
  destruct (field_map p "ComputeServers") as [cs|] eqn:Hcs; [|discriminate].
  cbn in H.
  destruct (field_map cs s) as [sc|] eqn:Hsc; [|discriminate].
  exists cs, sc. auto using field_str_Some, field_map_Some.
Qed.

(** A binding found by a lookup is one of the dict. *)
Lemma dict_lookup_In (d : pydict) (k : string) (v : pyval) :
  dict_lookup d k = Some v -> In (k, v) d.
Proof.
  induction d as [|[k' v'] d IH]; simpl; [discriminate|].
  destruct (String.eqb k' k) eqn:Hk.
  - apply String.eqb_eq in Hk. intros [= ->]. left. congruence.
  - auto.
Qed.

Lemma mapping_of_lookup (ok : pydict -> bool) (m : pydict) (k : string)
    (v : pyval) :
  mapping_of ok (VDict m) = true -> dict_lookup m k = Some v ->
  exists c, v = VDict c /\ ok c = true.
Proof.
  simpl. intros Hall Hk. apply dict_lookup_In in Hk.
  rewrite forallb_forall in Hall. specialize (Hall _ Hk). simpl in Hall.
  destruct v; try discriminate. eauto.
Qed.

Lemma shape_payload_resolves (f s t : string) :
  f <> "" -> resolves_to (shape_payload f s t) f s t.
Proof.
  intros Hf. apply String.eqb_neq in Hf.
  unfold resolves_to, current_function, server_of, action_config_of,
    type_of_server, field_map, field_str, shape_payload.
  cbn. rewrite Hf, !String.eqb_refl. auto.
Qed.

Lemma append_assoc (a b c : string) : (a +:+ b) +:+ c = a +:+ b +:+ c.
Proof.
  induction a as [|x a IH]; [reflexivity|].
  change (String x ((a +:+ b) +:+ c) = String x (a +:+ b +:+ c)).
  rewrite IH. reflexivity.
Qed.

Lemma mentions_infix (pre part post : string) :
  mentions (pre +:+ part +:+ post) part.
Proof. exists pre, post. reflexivity. Qed.

(** ** Frame: the payload and the environment are only read *)

Section Frame.

Context {A B : Type}.

Lemma same_store_refl (w : world) : same_store w w.
Proof. repeat split. Qed.

Lemma same_store_trans (w1 w2 w3 : world) :
  same_store w1 w2 -> same_store w2 w3 -> same_store w1 w3.
Proof. intros (? & ? & ?) (? & ? & ?). repeat split; congruence. Qed.

Lemma same_store_sym (w1 w2 : world) : same_store w1 w2 -> same_store w2 w1.
Proof. intros (? & ? & ?). repeat split; congruence. Qed.

Lemma same_store_record (e : event) (w : world) : same_store w (record e w).
Proof. repeat split. Qed.

Lemma read_only_ret (a : A) : read_only (mret a : M A).
Proof. intros w. apply same_store_refl. Qed.

Lemma read_only_raise (e : exn) : read_only (@raise A e).
Proof. intros w. apply same_store_refl. Qed.

Lemma read_only_bind (m : M A) (f : A -> M B) :
  read_only m -> (forall a, read_only (f a)) -> read_only (m ≫= f).
Proof.
  intros Hm Hf w. specialize (Hm w). unfold after in *.
  rewrite run_bind. destruct (m w) as [[a|e] w']; simpl in *; [|assumption].
  eapply same_store_trans; [eassumption|apply Hf].
Qed.

Lemma read_only_try_except (c : exn_class) (body handler : M A) :
  read_only body -> read_only handler ->
  read_only (try_except c body handler).
Proof.
  intros Hb Hh w. specialize (Hb w). unfold after in *.
  rewrite run_try_except.
  destruct (body w) as [[a|e] w']; simpl in *; [assumption|].
  destruct (exn_class_eqb (class_of e) c); [|assumption].
  eapply same_store_trans; [eassumption|apply Hh].
Qed.

End Frame.

Lemma read_only_emit (e : event) : read_only (emit e).
Proof. intros w. apply same_store_record. Qed.

Lemma read_only_logger_error (msg : string) : read_only (logger_error msg).
Proof. apply read_only_emit. Qed.

Lemma read_only_when (c : bool) (body : M unit) :
  read_only body -> read_only (when_ c body).
Proof. destruct c; [trivial|]. intros _. apply read_only_ret. Qed.

Lemma read_only_faasr_payload : read_only faasr_payload.
Proof. intros w. apply same_store_refl. Qed.

Lemma read_only_os_getenv (name : string) : read_only (os_getenv name).
Proof. intros w. apply same_store_record. Qed.

Lemma read_only_getitem (c k : pyval) : read_only (getitem c k).
Proof.
  intros w. unfold after. rewrite run_getitem.
  destruct (subscript c k); apply same_store_record.
Qed.

Lemma read_only_format_value (v : pyval) : read_only (format_value v).
Proof.
  intros w. unfold after. rewrite run_format_value.
  destruct (py_str _ v); apply same_store_refl.
Qed.

Lemma read_only_dict_get (d : pydict) (k : string) (dflt : pyval) :
  read_only (dict_get d k dflt).
Proof. intros w. apply same_store_record. Qed.

Create HintDb frame discriminated.

#[local] Hint Resolve read_only_ret read_only_raise read_only_try_except
  read_only_emit read_only_logger_error read_only_when read_only_faasr_payload
  read_only_os_getenv read_only_getitem read_only_dict_get
  read_only_format_value : frame.

#[local] Hint Extern 2 (read_only (_ ≫= _)) =>
  apply read_only_bind; [|intros ?] : frame.

#[local] Hint Extern 2 (read_only (if ?b then _ else _)) => destruct b : frame.

#[local] Hint Extern 2 (read_only (match ?o with Some _ => _ | None => _ end)) =>
  destruct o : frame.

Lemma read_only_faasr_secret_gh (name : string) :
  read_only (faasr_secret_gh name).
Proof. unfold faasr_secret_gh. auto 10 with frame. Qed.

Lemma read_only_faasr_secret (name : string) : read_only (faasr_secret name).
Proof.
  unfold faasr_secret.
  pose proof (read_only_faasr_secret_gh name).
  auto 30 with frame.
Qed.

(** ** The outcome is a function of the payload and the environment *)

Section Determined.

Context {A B : Type}.

Lemma store_determined_ret (a : A) : store_determined (mret a : M A).
Proof. intros w w' _. reflexivity. Qed.

Lemma store_determined_raise (e : exn) : store_determined (@raise A e).
Proof. intros w w' _. reflexivity. Qed.

Lemma store_determined_bind (m : M A) (f : A -> M B) :
  read_only m -> store_determined m -> (forall a, store_determined (f a)) ->
  store_determined (m ≫= f).
Proof.
  intros Hro Hm Hf w w' Hww.
  pose proof (Hm w w' Hww) as Hres.
  pose proof (Hro w) as Hw. pose proof (Hro w') as Hw'.
  unfold result, after in *. rewrite !run_bind.
  destruct (m w) as [r1 w1], (m w') as [r2 w2]; simpl in *. subst r2.
  destruct r1 as [a|e]; simpl; [|reflexivity].
  apply Hf.
  eauto using same_store_trans, same_store_sym.
Qed.

Lemma store_determined_try_except (c : exn_class) (body handler : M A) :
  read_only body -> store_determined body -> store_determined handler ->
  store_determined (try_except c body handler).
Proof.
  intros Hro Hb Hh w w' Hww.
  pose proof (Hb w w' Hww) as Hres.
  pose proof (Hro w) as Hw. pose proof (Hro w') as Hw'.
  unfold result, after in *. rewrite !run_try_except.
  destruct (body w) as [r1 w1], (body w') as [r2 w2]; simpl in *. subst r2.
  destruct r1 as [a|e]; simpl; [reflexivity|].
  destruct (exn_class_eqb (class_of e) c); [|reflexivity].
  apply Hh.
  eauto using same_store_trans, same_store_sym.
Qed.

End Determined.

Lemma store_determined_emit (e : event) : store_determined (emit e).
Proof. intros w w' _. reflexivity. Qed.

Lemma store_determined_logger_error (msg : string) :
  store_determined (logger_error msg).
Proof. apply store_determined_emit. Qed.

Lemma store_determined_when (c : bool) (body : M unit) :
  store_determined body -> store_determined (when_ c body).
Proof. destruct c; [trivial|]. intros _. apply store_determined_ret. Qed.

Lemma store_determined_faasr_payload : store_determined faasr_payload.
Proof. intros w w' (Hp & _ & _). unfold result. simpl. congruence. Qed.

Lemma store_determined_os_getenv (name : string) :
  store_determined (os_getenv name).
Proof. intros w w' (_ & He & _). unfold result. simpl. congruence. Qed.

Lemma store_determined_getitem (c k : pyval) : store_determined (getitem c k).
Proof.
  intros w w' _. unfold result. rewrite !run_getitem.
  destruct (subscript c k); reflexivity.
Qed.

Lemma store_determined_format_value (v : pyval) :
  store_determined (format_value v).
Proof.
  intros w w' (_ & _ & Hl). unfold result. rewrite !run_format_value, Hl.
  destruct (py_str _ v); reflexivity.
Qed.

Lemma store_determined_dict_get (d : pydict) (k : string) (dflt : pyval) :
  store_determined (dict_get d k dflt).
Proof. intros w w' _. reflexivity. Qed.

Create HintDb determ discriminated.

#[local] Hint Resolve store_determined_ret store_determined_raise
  store_determined_emit store_determined_logger_error store_determined_when
  store_determined_faasr_payload store_determined_os_getenv
  store_determined_getitem store_determined_dict_get
  store_determined_format_value : determ.

#[local] Hint Extern 2 (store_determined (_ ≫= _)) =>
  apply store_determined_bind; [auto 10 with frame| |intros ?] : determ.

#[local] Hint Extern 2 (store_determined (try_except _ _ _)) =>
  apply store_determined_try_except; [auto 10 with frame| |] : determ.

#[local] Hint Extern 2 (store_determined (if ?b then _ else _)) =>
  destruct b : determ.

#[local] Hint Extern 2
    (store_determined (match ?o with Some _ => _ | None => _ end)) =>
  destruct o : determ.



(** ** The environment-variable getter, [faasr_secret_gh] *)

Lemma getenv_calls_snoc (t : list event) (e : event) :
  getenv_calls (t ++ [e])%list =
  (getenv_calls t ++
   match e with EvGetenv n => [n] | _ => [] end)%list.
Proof.
  unfold getenv_calls. rewrite omap_app. destruct e; reflexivity.
Qed.

Lemma payload_lookups_snoc (t : list event) (e : event) :
  payload_lookups (t ++ [e])%list =
  (payload_lookups t ++
   match e with EvLookup k => [k] | _ => [] end)%list.
Proof.
  unfold payload_lookups. rewrite omap_app. destruct e; reflexivity.
Qed.

Lemma faasr_secret_gh_run (name : string) (w : world) :
  faasr_secret_gh name w =
  match w_environ w !! name with
  | Some v => (Return v, record (EvGetenv name) w)
  | None =>
      (Raise (Raised KeyError (msg_not_found name)),
       record (EvLogError (msg_not_found name)) (record (EvGetenv name) w))
  end.
Proof.
  unfold faasr_secret_gh. run.
  destruct (w_environ w !! name); run; reflexivity.
Qed.

(** C3.  A name that is set in the environment: [faasr_secret_gh] returns
    the stored value itself, whatever its characters are. *)
Theorem faasr_secret_gh_present (name v : string) (w : world) :
  w_environ w !! name = Some v ->
  result (faasr_secret_gh name) w = Return v.
Proof.
  intros Hv. unfold result. rewrite faasr_secret_gh_run, Hv. reflexivity.
Qed.

Lemma faasr_secret_gh_present_witness :
  w_environ (scenario_world "GitHubActions") !! "PADDED" = Some "  abc 123 " /\
  result (faasr_secret_gh "PADDED") (scenario_world "GitHubActions") =
  Return "  abc 123 ".
Proof.
  split; [vm_compute; reflexivity|].
  apply (faasr_secret_gh_present "PADDED" "  abc 123 "
           (scenario_world "GitHubActions")).
  vm_compute; reflexivity.
Defined.

(** C4.  A name that is not set in the environment: [faasr_secret_gh]
    raises [KeyError], its message has the name in it, and no value is
    returned; the failure is logged first. *)
Theorem faasr_secret_gh_absent (name : string) (w : world) :
  w_environ w !! name = None ->
  result (faasr_secret_gh name) w = Raise (Raised KeyError (msg_not_found name))
  /\ mentions (msg_not_found name) name
  /\ (forall v, result (faasr_secret_gh name) w <> Return v)
  /\ w_trace (after (faasr_secret_gh name) w) =
     (w_trace w ++ [EvGetenv name; EvLogError (msg_not_found name)])%list.
Proof.
  intros Hv. unfold result, after. rewrite faasr_secret_gh_run, Hv. simpl.
  repeat split.
  - apply mentions_infix.
  - discriminate.
  - rewrite <- app_assoc. reflexivity.
Qed.

Lemma faasr_secret_gh_absent_witness :
  w_environ (scenario_world "GitHubActions") !! "OTHER" = None /\
  result (faasr_secret_gh "OTHER") (scenario_world "GitHubActions") =
  Raise (Raised KeyError
    "faasr_secret: Secret 'OTHER' not found in environment variables").
Proof.
  split; [vm_compute; reflexivity|].
  apply (faasr_secret_gh_absent "OTHER" (scenario_world "GitHubActions")).
  vm_compute; reflexivity.
Defined.

(** ** The resolver, [faasr_secret] *)

Lemma faasr_secret_empty_run (w : world) :
  faasr_secret "" w =
  (Raise (Raised ValueError msg_empty_name),
   record (EvLogError msg_empty_name) w).
Proof. unfold faasr_secret. run. reflexivity. Qed.

(** C5.  With the empty string as secret name, [faasr_secret] raises
    [ValueError] whatever the payload and the environment are; all it does
    before is to log the message: nothing is looked up in the payload or in
    the environment. *)
Theorem faasr_secret_empty_name (w : world) :
  faasr_secret "" w =
  (Raise (Raised ValueError msg_empty_name),
   record (EvLogError msg_empty_name) w)
  /\ payload_lookups (w_trace (after (faasr_secret "") w)) =
     payload_lookups (w_trace w)
  /\ getenv_calls (w_trace (after (faasr_secret "") w)) =
     getenv_calls (w_trace w).
Proof.
  unfold after. rewrite faasr_secret_empty_run. simpl.
  rewrite payload_lookups_snoc, getenv_calls_snoc, !app_nil_r. auto.
Qed.

(** C10.  [faasr_secret_gh] does not check that the name is not empty: with
    the empty name, absent from the environment, it looks the name up and
    raises [KeyError], where [faasr_secret] raises [ValueError]. *)
Theorem faasr_secret_gh_no_validation (w : world) :
  w_environ w !! "" = None ->
  result (faasr_secret_gh "") w = Raise (Raised KeyError (msg_not_found ""))
  /\ getenv_calls (w_trace (after (faasr_secret_gh "") w)) =
     (getenv_calls (w_trace w) ++ [""])%list
  /\ result (faasr_secret "") w = Raise (Raised ValueError msg_empty_name).
Proof.
  intros Hv. unfold result, after.
  rewrite faasr_secret_empty_run, faasr_secret_gh_run, Hv. simpl.
  rewrite !getenv_calls_snoc, app_nil_r. auto.
Qed.

Lemma faasr_secret_gh_no_validation_witness :
  w_environ (scenario_world "GitHubActions") !! "" = None /\
  result (faasr_secret_gh "") (scenario_world "GitHubActions") =
  Raise (Raised KeyError
    "faasr_secret: Secret '' not found in environment variables") /\
  result (faasr_secret "") (scenario_world "GitHubActions") =
  Raise (Raised ValueError "faasr_secret: secret_name cannot be empty").
Proof.
  split; [vm_compute; reflexivity|].
  pose proof (faasr_secret_gh_no_validation (scenario_world "GitHubActions"))
    as H.
  destruct H as (Hgh & _ & Hres); [vm_compute; reflexivity|].
  split; [exact Hgh|exact Hres].
Defined.

(** C8.  [faasr_secret] only reads: after the call, on success and on every
    failure, the payload is the one it was before, and so is the
    environment. *)
Theorem faasr_secret_payload_unchanged (name : string) (w : world) :
  w_payload (after (faasr_secret name) w) = w_payload w
  /\ w_environ (after (faasr_secret name) w) = w_environ w.
Proof.
  destruct (read_only_faasr_secret name w) as (Hp & He & _). auto.
Qed.


(** Once the payload resolves the current function to a platform type, what
    is left of [faasr_secret] is the dispatch, after seven lookups. *)
Lemma faasr_secret_resolved (w : world) (f s t name : string) :
  name <> "" -> resolves_to (w_payload w) f s t ->
  exists w',
    same_store w w' /\
    w_trace w' = (w_trace w ++ resolution_lookups f s)%list /\
    faasr_secret name w =
    if String.eqb t "GitHubActions" then faasr_secret_gh name w'
    else (Raise (Raised NotImplementedError (msg_unsupported t)),
          record (EvLogError (msg_unsupported t)) w').
Proof.
  intros Hn (Hf & Hs & Ht).
  apply String.eqb_neq in Hn.
  apply current_function_Some in Hf as [Hf Hfne].
  apply server_of_Some in Hs as (al & cfg & Hal & Hcfg & Hs).
  apply type_of_server_Some in Ht as (cs & sc & Hcs & Hsc & Ht).
  eexists. split; [|split]; cycle 2.
  - unfold faasr_secret. run_known.
    destruct (String.eqb t "GitHubActions"); run; reflexivity.
  - repeat split.
  - cbn [w_trace record]. rewrite <- !app_assoc. reflexivity.
Qed.

Lemma getenv_calls_resolution (t : list event) (f s : string) :
  getenv_calls (t ++ resolution_lookups f s)%list = getenv_calls t.
Proof. unfold getenv_calls. rewrite omap_app. apply app_nil_r. Qed.

(** The success path in general: a payload that resolves to a GitHub Actions
    server, a name that is set. *)
Lemma resolved_github_returns (w : world) (f s name v : string) :
  name <> "" -> resolves_to (w_payload w) f s "GitHubActions" ->
  w_environ w !! name = Some v ->
  result (faasr_secret name) w = Return v.
Proof.
  intros Hn Hres Hv.
  destruct (faasr_secret_resolved w f s _ name Hn Hres)
    as (w' & (_ & Henv & _) & _ & Hrun).
  unfold result. rewrite Hrun, String.eqb_refl, faasr_secret_gh_run, Henv, Hv.
  reflexivity.
Qed.

(** An empty or missing [FunctionInvoke] stops the resolution, whatever else
    the payload holds. *)
Lemma faasr_secret_no_function (w : world) (name : string) :
  name <> "" ->
  truthy (match dict_lookup (w_payload w) "FunctionInvoke" with
          | Some v => v
          | None => VStr ""
          end) = false ->
  faasr_secret name w =
  (Raise (Raised RuntimeError msg_no_function),
   record (EvLogError msg_no_function)
     (record (EvLookup (VStr "FunctionInvoke")) w)).
Proof.
  intros Hn Hfi. apply String.eqb_neq in Hn.
  unfold faasr_secret. run_known. rewrite Hfi. run. reflexivity.
Qed.

(** C1, for a function name that is not empty.  For the payload
    [{FunctionInvoke: f, ActionList: {f: {FaaSServer: s}}, ComputeServers:
    {s: {FaaSType: "GitHubActions"}}}] with [f] not empty, and a secret name
    that is not empty and is set in the environment, [faasr_secret] returns
    the value stored under the name. *)
Theorem faasr_secret_github (w : world) (f s name v : string) :
  f <> "" ->
  w_payload w = shape_payload f s "GitHubActions" ->
  name <> "" ->
  w_environ w !! name = Some v ->
  result (faasr_secret name) w = Return v.
Proof.
  intros Hf Hp Hn Hv.
  apply (resolved_github_returns w f s); [assumption| |assumption].
  rewrite Hp. apply shape_payload_resolves, Hf.
Qed.

Lemma faasr_secret_github_witness :
  w_environ (scenario_world "GitHubActions") !! "MY_SECRET" = Some "abc123" /\
  result (faasr_secret "MY_SECRET") (scenario_world "GitHubActions") =
  Return "abc123".
Proof.
  split; [vm_compute; reflexivity|].
  apply (faasr_secret_github (scenario_world "GitHubActions")
           "f1" "s1" "MY_SECRET" "abc123").
  - discriminate.
  - reflexivity.
  - discriminate.
  - vm_compute; reflexivity.
Defined.

(** C1 as it is stated fails for the empty function name: the payload has
    the shape and the name is set, and [faasr_secret] raises [RuntimeError],
    since it takes an empty [FunctionInvoke] for a missing one. *)
Lemma faasr_secret_github_empty_function :
  w_payload empty_function_world = shape_payload "" "s1" "GitHubActions" /\
  "MY_SECRET" <> "" /\
  w_environ empty_function_world !! "MY_SECRET" = Some "abc123" /\
  result (faasr_secret "MY_SECRET") empty_function_world =
    Raise (Raised RuntimeError msg_no_function) /\
  result (faasr_secret "MY_SECRET") empty_function_world <> Return "abc123".
Proof.
  split; [reflexivity|]. split; [discriminate|].
  split; [vm_compute; reflexivity|].
  unfold result.
  rewrite (faasr_secret_no_function empty_function_world "MY_SECRET");
    [|discriminate|reflexivity].
  split; [reflexivity|discriminate].
Qed.

(** C6, for a secret name that is not empty.  The payload resolves the
    current function to a server whose [FaaSType] is a string other than
    ["GitHubActions"]: [faasr_secret] raises [NotImplementedError], the
    message has the type in it and says that only GitHubActions is
    supported, and [os.getenv] is not called. *)
Theorem faasr_secret_unsupported (w : world) (f s t name : string) :
  name <> "" ->
  resolves_to (w_payload w) f s t ->
  t <> "GitHubActions" ->
  result (faasr_secret name) w =
    Raise (Raised NotImplementedError (msg_unsupported t))
  /\ mentions (msg_unsupported t) t
  /\ mentions (msg_unsupported t) "Only GitHubActions is currently supported"
  /\ getenv_calls (w_trace (after (faasr_secret name) w)) =
     getenv_calls (w_trace w).
Proof.
  intros Hn Hres Ht. apply String.eqb_neq in Ht.
  destruct (faasr_secret_resolved w f s t name Hn Hres)
    as (w' & _ & Htr & Hrun).
  unfold result, after. rewrite Hrun, Ht. simpl.
  repeat split.
  - apply mentions_infix.
  - exists ("faasr_secret: Compute server type '" +:+ t +:+
            "' is not supported. "), ".".
    unfold msg_unsupported. rewrite !append_assoc. reflexivity.
  - rewrite getenv_calls_snoc, app_nil_r, Htr.
    apply getenv_calls_resolution.
Qed.

Lemma faasr_secret_unsupported_witness :
  resolves_to (w_payload (scenario_world "AWS Lambda")) "f1" "s1" "AWS Lambda"
  /\ result (faasr_secret "MY_SECRET") (scenario_world "AWS Lambda") =
     Raise (Raised NotImplementedError
       "faasr_secret: Compute server type 'AWS Lambda' is not supported. Only GitHubActions is currently supported.").
Proof.
  assert (Hres : resolves_to (w_payload (scenario_world "AWS Lambda"))
                   "f1" "s1" "AWS Lambda") by (repeat split).
  split; [exact Hres|].
  apply (faasr_secret_unsupported (scenario_world "AWS Lambda")
           "f1" "s1" "AWS Lambda" "MY_SECRET").
  - discriminate.
  - exact Hres.
  - discriminate.
Defined.

(** C6 as it is stated fails for the empty secret name: the payload
    resolves to a server of type ["AWS Lambda"], and [faasr_secret] raises
    [ValueError], not [NotImplementedError]. *)
Lemma faasr_secret_unsupported_empty_name :
  resolves_to (w_payload (scenario_world "AWS Lambda")) "f1" "s1" "AWS Lambda"
  /\ "AWS Lambda" <> "GitHubActions"
  /\ result (faasr_secret "") (scenario_world "AWS Lambda") =
     Raise (Raised ValueError msg_empty_name)
  /\ forall msg,
       result (faasr_secret "") (scenario_world "AWS Lambda") <>
       Raise (Raised NotImplementedError msg).
Proof.
  split; [repeat split|]. split; [discriminate|].
  unfold result. rewrite faasr_secret_empty_run. split; [reflexivity|].
  discriminate.
Qed.

(** C7, for a secret name that is not empty.  [FunctionInvoke] is a string
    [f] that is not empty and [ActionList] has no entry for [f]:
    [faasr_secret] raises [RuntimeError] with a message that has [f] in
    it. *)
Theorem faasr_secret_missing_action (w : world) (f name : string) :
  name <> "" ->
  current_function (w_payload w) = Some f ->
  lacks_action (w_payload w) f = true ->
  result (faasr_secret name) w = Raise (Raised RuntimeError (msg_no_action f))
  /\ mentions (msg_no_action f) f.
Proof.
  intros Hn Hf Hal. split; [|apply mentions_infix].
  apply String.eqb_neq in Hn.
  apply current_function_Some in Hf as [Hf Hfne].
  unfold lacks_action in Hal. unfold result, faasr_secret.
  destruct (dict_lookup (w_payload w) "ActionList") as [v|] eqn:Hv.
  - destruct v as [| | | | |al]; try discriminate.
    destruct (dict_lookup al f) eqn:Hc; [discriminate|].
    run_known. reflexivity.
  - run_known. reflexivity.
Qed.

Lemma faasr_secret_missing_action_witness :
  current_function (w_payload no_action_world) = Some "f1" /\
  lacks_action (w_payload no_action_world) "f1" = true /\
  result (faasr_secret "MY_SECRET") no_action_world =
  Raise (Raised RuntimeError
    "faasr_secret: Function f1 not found in ActionList").
Proof.
  split; [reflexivity|]. split; [reflexivity|].
  apply (faasr_secret_missing_action no_action_world "f1" "MY_SECRET").
  - discriminate.
  - reflexivity.
  - reflexivity.
Defined.

(** C7 as it is stated fails for the empty secret name: [ActionList] has no
    entry for the current function, and [faasr_secret] raises [ValueError],
    not [RuntimeError]. *)
Lemma faasr_secret_missing_action_empty_name :
  current_function (w_payload no_action_world) = Some "f1" /\
  lacks_action (w_payload no_action_world) "f1" = true /\
  result (faasr_secret "") no_action_world =
    Raise (Raised ValueError msg_empty_name) /\
  forall msg,
    result (faasr_secret "") no_action_world <>
    Raise (Raised RuntimeError msg).
Proof.
  split; [reflexivity|]. split; [reflexivity|].
  unfold result. rewrite faasr_secret_empty_run. split; [reflexivity|].
  discriminate.
Qed.

(** A payload of the data model is one whose values, where the resolution
    reaches them, have the types of the data model. *)
Lemma shaped_consulted_typed (p : pydict) (name : string) :
  shaped p = true -> consulted_typed p name = true.
Proof.
  intros Hsh. unfold shaped in Hsh.
  apply andb_prop in Hsh as [Hsh H3]. apply andb_prop in Hsh as [H1 H2].
  unfold consulted_typed, get_or.
  destruct (String.eqb name ""); [reflexivity|].
  destruct (dict_lookup p "FunctionInvoke") as [v|] eqn:Hfi; [|reflexivity].
  destruct v as [| | |f| |]; try discriminate. clear H1.
  destruct (negb (truthy (VStr f))); [reflexivity|].
  destruct (dict_lookup p "ActionList") as [v|] eqn:Hal; [|reflexivity].
  destruct v as [| | | | |al]; try discriminate.
  destruct (dict_lookup al f) as [c|] eqn:Hc; [|reflexivity].
  destruct (mapping_of_lookup _ _ _ _ H2 Hc) as (cfg & -> & Hcfg).
  destruct (dict_lookup cfg "FaaSServer") as [v|] eqn:Hs; [|reflexivity].
  destruct v as [| | |s| |]; try discriminate.
  destruct (dict_lookup p "ComputeServers") as [v|] eqn:Hcs; [|reflexivity].
  destruct v as [| | | | |cs]; try discriminate.
  destruct (dict_lookup cs s) as [c|] eqn:Hsc; [|reflexivity].
  destruct (mapping_of_lookup _ _ _ _ H3 Hsc) as (sc & -> & Hok).
  exact Hok.
Qed.

(** C2, for the payloads whose values have the types of the data model
    where the resolution reaches them.  On such a payload, whichever of its
    fields are missing and whatever the rest of it holds, [faasr_secret]
    does what the steps of the specification do in their order: the secret
    name, [FunctionInvoke], the entry of [ActionList], its [FaaSServer], the
    entry of [ComputeServers] and its [FaaSType], the dispatch; the
    exception is that of the first step that fails. *)
Theorem faasr_secret_steps (name : string) (w : world) :
  consulted_typed (w_payload w) name = true ->
  result (faasr_secret name) w =
  resolve_secret (w_payload w) name (w_environ w).
Proof.
  intros Hty. unfold consulted_typed, get_or in Hty.
  unfold resolve_secret, result.
  destruct (String.eqb name "") eqn:Hn.
  { apply String.eqb_eq in Hn. subst name.
    rewrite faasr_secret_empty_run. reflexivity. }
  unfold current_function, field_str, faasr_secret.
  destruct (dict_lookup (w_payload w) "FunctionInvoke") as [v|] eqn:Hfi;
    [|run_known; reflexivity].
  destruct (truthy v) eqn:Htr; cbn [negb] in Hty.
  2:{ run_known. rewrite Htr. run.
      destruct v as [| | |f| |]; try reflexivity.
      rewrite truthy_str in Htr. apply negb_false_iff in Htr.
      rewrite Htr. reflexivity. }
  destruct v as [| | |f| |]; try discriminate.
  rewrite truthy_str in Htr. apply negb_true_iff in Htr. rename Htr into Hf.
  rewrite Hf.
  unfold action_config_of, field_map.
  destruct (dict_lookup (w_payload w) "ActionList") as [v|] eqn:Hal;
    [|run_known; reflexivity].
  destruct v as [| | | | |al]; try discriminate. cbn [mbind option_bind].
  destruct (dict_lookup al f) as [v|] eqn:Hc; [|run_known; reflexivity].
  destruct v as [| | | | |cfg]; try discriminate.
  destruct (dict_lookup cfg "FaaSServer") as [v|] eqn:Hs;
    [|run_known; reflexivity].
  destruct v as [| | |s| |]; try discriminate.
  unfold type_of_server, field_map.
  destruct (dict_lookup (w_payload w) "ComputeServers") as [v|] eqn:Hcs;
    [|run_known; reflexivity].
  destruct v as [| | | | |cs]; try discriminate. cbn [mbind option_bind].
  destruct (dict_lookup cs s) as [v|] eqn:Hsc; [|run_known; reflexivity].
  destruct v as [| | | | |sc]; try discriminate.
  cbn [mbind option_bind]. unfold field_str.
  destruct (dict_lookup sc "FaaSType") as [v|] eqn:Ht;
    [|run_known; reflexivity].
  destruct v as [| | |t| |]; try discriminate. clear Hty.
  run_known.
  destruct (String.eqb t "GitHubActions"); [|run; reflexivity].
  rewrite faasr_secret_gh_run. unfold get_env_secret. simpl.
  destruct (w_environ w !! name); reflexivity.
Qed.

(** The example of C2: [FunctionInvoke] is empty and [ActionList] is
    missing; the exception is the one of [FunctionInvoke]. *)
Lemma faasr_secret_steps_witness :
  consulted_typed (w_payload no_function_world) "MY_SECRET" = true /\
  result (faasr_secret "MY_SECRET") no_function_world =
  Raise (Raised RuntimeError
    "faasr_secret: Cannot determine current function from payload").
Proof.
  split; [reflexivity|].
  rewrite (faasr_secret_steps "MY_SECRET" no_function_world); reflexivity.
Defined.

(** C2 as it is stated, for every payload, fails where [ActionList] is a
    string: the secret name and [FunctionInvoke] pass, [ActionList] has no
    entry for [f1], which is the third step and has the [RuntimeError] that
    names [f1]; [faasr_secret] raises the [TypeError] of the interpreter,
    the exception of none of the steps.  Only [KeyError] is caught. *)
Lemma faasr_secret_steps_ill_typed :
  current_function (w_payload ill_typed_world) = Some "f1" /\
  action_config_of (w_payload ill_typed_world) "f1" = None /\
  resolve_secret (w_payload ill_typed_world) "MY_SECRET"
    (w_environ ill_typed_world) =
    Raise (Raised RuntimeError (msg_no_action "f1")) /\
  result (faasr_secret "MY_SECRET") ill_typed_world =
    Raise (Builtin TypeError) /\
  forall c msg,
    result (faasr_secret "MY_SECRET") ill_typed_world <>
    Raise (Raised c msg).
Proof.
  split; [reflexivity|]. split; [reflexivity|]. split; [reflexivity|].
  assert (Hres : result (faasr_secret "MY_SECRET") ill_typed_world =
                 Raise (Builtin TypeError)) by (vm_compute; reflexivity).
  split; [exact Hres|]. intros c msg. rewrite Hres. discriminate.
Qed.

(** ** The scenarios, run *)

Example scenario_secret_set :
  result (faasr_secret "MY_SECRET") (scenario_world "GitHubActions") =
  Return "abc123".
Proof. vm_compute. reflexivity. Qed.

Example scenario_secret_not_set :
  result (faasr_secret "OTHER") (scenario_world "GitHubActions") =
  Raise (Raised KeyError
    "faasr_secret: Secret 'OTHER' not found in environment variables").
Proof. vm_compute. reflexivity. Qed.

Example scenario_openwhisk :
  result (faasr_secret "MY_SECRET") (scenario_world "OpenWhisk") =
  Raise (Raised NotImplementedError
    "faasr_secret: Compute server type 'OpenWhisk' is not supported. Only GitHubActions is currently supported.").
Proof. vm_compute. reflexivity. Qed.

Example scenario_trace :
  w_trace (after (faasr_secret "OTHER") (scenario_world "GitHubActions")) =
  (resolution_lookups "f1" "s1" ++
   [ EvGetenv "OTHER";
     EvLogError
       "faasr_secret: Secret 'OTHER' not found in environment variables" ])%list.
Proof. vm_compute. reflexivity. Qed.

(** The rest of the payload may hold anything: the resolution stops at the
    empty [FunctionInvoke]. *)
Example scenario_untyped_rest :
  shaped (w_payload untyped_rest_world) = false /\
  consulted_typed (w_payload untyped_rest_world) "MY_SECRET" = true /\
  result (faasr_secret "MY_SECRET") untyped_rest_world =
  Raise (Raised RuntimeError msg_no_function).
Proof. repeat split; vm_compute; reflexivity. Qed.

(** [str] of values, under the limits an interpreter starts with, and with
    room for two calls of [repr] only. *)
Example str_of_values :
  py_str default_limits
    (VDict [ ("a", VInt 1);
             ("b", VList [ VStr "x"; VNone; VBool true; VInt (-12) ]) ]) =
    inl "{'a': 1, 'b': ['x', None, True, -12]}"%string /\
  py_str default_limits (VInt (- 10 ^ 4300)) = inr ValueError /\
  py_str default_limits (VList [ VInt 1; VInt (10 ^ 4300) ]) =
    inr ValueError /\
  py_str {| max_str_digits := 4300; repr_room := 2 |}
    (VList [ VList [] ]) = inl "[[]]"%string /\
  py_str {| max_str_digits := 4300; repr_room := 2 |}
    (VList [ VList [ VList [] ] ]) = inr RecursionError.
Proof. split; [|split; [|split; [|split]]]; vm_compute; reflexivity. Qed.

(** Outside the data model the interpreter's own exceptions get through:
    only [KeyError] is caught. *)
Example scenario_ill_typed :
  result (faasr_secret "MY_SECRET") ill_typed_world = Raise (Builtin TypeError).
Proof. vm_compute. reflexivity. Qed.

(** ** The failures of the resolution, one by one *)

Lemma log_calls_snoc (t : list event) (e : event) :
  log_calls (t ++ [e])%list =
  (log_calls t ++ match e with EvLogError m => [m] | _ => [] end)%list.
Proof.
  unfold log_calls. rewrite omap_app. destruct e; reflexivity.
Qed.

Lemma append_empty_r (a : string) : a +:+ "" = a.
Proof.
  induction a as [|x a IH]; [reflexivity|].
  change (String x (a +:+ "") = String x a). rewrite IH. reflexivity.
Qed.

Lemma mentions_suffix (pre part : string) : mentions (pre +:+ part) part.
Proof. exists pre, "". rewrite append_empty_r. reflexivity. Qed.

(** X1.  [FunctionInvoke] is missing or falsy ([None], [False], [0], an
    empty string, list or dict) and the secret name is not empty:
    [faasr_secret] raises [RuntimeError] after this one lookup, whatever
    else the payload holds, and does not call [os.getenv]. *)
Theorem faasr_secret_function_missing (w : world) (name : string) :
  name <> "" ->
  truthy (get_or (w_payload w) "FunctionInvoke" (VStr "")) = false ->
  result (faasr_secret name) w = Raise (Raised RuntimeError msg_no_function)
  /\ w_trace (after (faasr_secret name) w) =
     (w_trace w ++ [ EvLookup (VStr "FunctionInvoke");
                     EvLogError msg_no_function ])%list.
Proof.
  intros Hn Hfi. apply String.eqb_neq in Hn. unfold get_or in Hfi.
  unfold result, after, faasr_secret. run_known. rewrite Hfi. run.
  cbn [fst snd w_trace record]. rewrite <- app_assoc. auto.
Qed.

Lemma faasr_secret_function_missing_witness :
  truthy (get_or (w_payload none_function_world) "FunctionInvoke" (VStr ""))
    = false /\
  result (faasr_secret "MY_SECRET") none_function_world =
  Raise (Raised RuntimeError
    "faasr_secret: Cannot determine current function from payload").
Proof.
  split; [reflexivity|].
  apply (faasr_secret_function_missing none_function_world "MY_SECRET").
  - discriminate.
  - reflexivity.
Defined.

(** X2.  The configuration of the current function [f] is a mapping without
    [FaaSServer], and the secret name is not empty: [faasr_secret] raises
    [RuntimeError] with a message that has [f] in it; [ComputeServers] is not
    looked at. *)
Theorem faasr_secret_server_missing (w : world) (f name : string)
    (cfg : pydict) :
  name <> "" ->
  current_function (w_payload w) = Some f ->
  action_config_of (w_payload w) f = Some cfg ->
  dict_lookup cfg "FaaSServer" = None ->
  result (faasr_secret name) w = Raise (Raised RuntimeError (msg_no_server f))
  /\ mentions (msg_no_server f) f
  /\ payload_lookups (w_trace (after (faasr_secret name) w)) =
     (payload_lookups (w_trace w) ++
      [ VStr "FunctionInvoke"; VStr "ActionList"; VStr f;
        VStr "FaaSServer" ])%list.
Proof.
  intros Hn Hf Hcfg Hs. apply String.eqb_neq in Hn.
  apply current_function_Some in Hf as [Hf Hfne].
  apply action_config_of_Some in Hcfg as (al & Hal & Hcfg).
  unfold result, after, faasr_secret. run_known.
  cbn [fst snd w_trace record].
  split; [reflexivity|]. split.
  - apply mentions_suffix.
  - rewrite !payload_lookups_snoc, <- !app_assoc. reflexivity.
Qed.

Lemma faasr_secret_server_missing_witness :
  current_function (w_payload no_server_world) = Some "f1" /\
  action_config_of (w_payload no_server_world) "f1" = Some [] /\
  result (faasr_secret "MY_SECRET") no_server_world =
  Raise (Raised RuntimeError
    "faasr_secret: FaaSServer not found for function f1").
Proof.
  split; [reflexivity|]. split; [reflexivity|].
  apply (faasr_secret_server_missing no_server_world "f1" "MY_SECRET" []).
  - discriminate.
  - reflexivity.
  - reflexivity.
  - reflexivity.
Defined.

(** X3.  The current function runs on server [s], and there is no platform
    type for [s]: [ComputeServers] is missing, or has no entry for [s], or
    the entry has no [FaaSType].  With a secret name that is not empty,
    [faasr_secret] raises [RuntimeError] with a message that has [s] in it,
    the same in the three cases, and does not call [os.getenv]. *)
Theorem faasr_secret_type_missing (w : world) (f s name : string) :
  name <> "" ->
  current_function (w_payload w) = Some f ->
  server_of (w_payload w) f = Some s ->
  lacks_type (w_payload w) s = true ->
  result (faasr_secret name) w = Raise (Raised RuntimeError (msg_no_type s))
  /\ mentions (msg_no_type s) s
  /\ getenv_calls (w_trace (after (faasr_secret name) w)) =
     getenv_calls (w_trace w).
Proof.
  intros Hn Hf Hs Ht. apply String.eqb_neq in Hn.
  apply current_function_Some in Hf as [Hf Hfne].
  apply server_of_Some in Hs as (al & cfg & Hal & Hcfg & Hs).
  unfold lacks_type in Ht. unfold result, after, faasr_secret.
  split; [|split; [apply mentions_infix|]].
  - destruct (dict_lookup (w_payload w) "ComputeServers") as [v|] eqn:Hcs;
      [|run_known; reflexivity].
    destruct v as [| | | | |cs]; try discriminate.
    destruct (dict_lookup cs s) as [v|] eqn:Hsc; [|run_known; reflexivity].
    destruct v as [| | | | |sc]; try discriminate.
    destruct (dict_lookup sc "FaaSType") eqn:Hty; [discriminate|].
    run_known. reflexivity.
  - destruct (dict_lookup (w_payload w) "ComputeServers") as [v|] eqn:Hcs.
    + destruct v as [| | | | |cs]; try discriminate.
      destruct (dict_lookup cs s) as [v|] eqn:Hsc.
      * destruct v as [| | | | |sc]; try discriminate.
        destruct (dict_lookup sc "FaaSType") eqn:Hty; [discriminate|].
        run_known. cbn [fst snd w_trace record].
        rewrite !getenv_calls_snoc, !app_nil_r. reflexivity.
      * run_known. cbn [fst snd w_trace record].
        rewrite !getenv_calls_snoc, !app_nil_r. reflexivity.
    + run_known. cbn [fst snd w_trace record].
      rewrite !getenv_calls_snoc, !app_nil_r. reflexivity.
Qed.

Lemma faasr_secret_type_missing_witness :
  server_of (w_payload no_type_world) "f1" = Some "s1" /\
  lacks_type (w_payload no_type_world) "s1" = true /\
  result (faasr_secret "MY_SECRET") no_type_world =
  Raise (Raised RuntimeError
    "faasr_secret: Compute server s1 not found or missing FaaSType").
Proof.
  split; [reflexivity|]. split; [reflexivity|].
  apply (faasr_secret_type_missing no_type_world "f1" "s1" "MY_SECRET").
  - discriminate.
  - reflexivity.
  - reflexivity.
  - reflexivity.
Defined.

(** ** The dispatch *)

(** X4.  On a payload that resolves the current function to a GitHub
    Actions server, with a secret name that is not empty, [faasr_secret] has
    the outcome of [faasr_secret_gh], the [KeyError] of an unset name
    included, and calls [os.getenv] only once the seven lookups are done. *)
Theorem faasr_secret_github_delegates (w : world) (f s name : string) :
  name <> "" ->
  resolves_to (w_payload w) f s "GitHubActions" ->
  result (faasr_secret name) w = result (faasr_secret_gh name) w
  /\ w_trace (after (faasr_secret name) w) =
     (w_trace w ++ resolution_lookups f s ++
      EvGetenv name ::
      match w_environ w !! name with
      | Some _ => []
      | None => [EvLogError (msg_not_found name)]
      end)%list.
Proof.
  intros Hn Hres.
  destruct (faasr_secret_resolved w f s _ name Hn Hres)
    as (w' & (_ & Henv & _) & Htr & Hrun).
  unfold result, after.
  rewrite Hrun, String.eqb_refl, !faasr_secret_gh_run, Henv.
  destruct (w_environ w !! name); cbn [fst snd w_trace record];
    rewrite Htr, <- !app_assoc; auto.
Qed.

Lemma faasr_secret_github_delegates_witness :
  resolves_to (w_payload (scenario_world "GitHubActions"))
    "f1" "s1" "GitHubActions" /\
  result (faasr_secret "OTHER") (scenario_world "GitHubActions") =
  result (faasr_secret_gh "OTHER") (scenario_world "GitHubActions").
Proof.
  assert (Hres : resolves_to (w_payload (scenario_world "GitHubActions"))
                   "f1" "s1" "GitHubActions") by (repeat split).
  split; [exact Hres|].
  apply (faasr_secret_github_delegates (scenario_world "GitHubActions")
           "f1" "s1" "OTHER").
  - discriminate.
  - exact Hres.
Defined.

(** Up to the dispatch, for a [FaaSType] of any type. *)
Lemma faasr_secret_type_value (w : world) (f s name : string) (v : pyval) :
  name <> "" ->
  current_function (w_payload w) = Some f ->
  server_of (w_payload w) f = Some s ->
  type_value_of (w_payload w) s = Some v ->
  matches_str v "GitHubActions" = false ->
  exists w',
    w_trace w' = (w_trace w ++ resolution_lookups f s)%list /\
    faasr_secret name w =
    match py_str (w_limits w) v with
    | inl text =>
        (Raise (Raised NotImplementedError (msg_unsupported text)),
         record (EvLogError (msg_unsupported text)) w')
    | inr cls => (Raise (Builtin cls), w')
    end.
Proof.
  intros Hn Hf Hs Hv Hm. apply String.eqb_neq in Hn.
  apply current_function_Some in Hf as [Hf Hfne].
  apply server_of_Some in Hs as (al & cfg & Hal & Hcfg & Hs).
  unfold type_value_of in Hv.
  destruct (field_map (w_payload w) "ComputeServers") as [cs|] eqn:Hcs;
    [|discriminate].
  cbn [mbind option_bind] in Hv.
  destruct (field_map cs s) as [sc|] eqn:Hsc; [|discriminate].
  cbn [mbind option_bind] in Hv.
  apply field_map_Some in Hcs, Hsc.
  eexists. split; cycle 1.
  - unfold faasr_secret. run_known. rewrite Hm. run.
    destruct (py_str (w_limits w) v); run; reflexivity.
  - cbn [w_trace record]. rewrite <- !app_assoc. reflexivity.
Qed.

Lemma log_calls_resolution (t : list event) (f s : string) :
  log_calls (t ++ resolution_lookups f s)%list = log_calls t.
Proof. unfold log_calls. rewrite omap_app. apply app_nil_r. Qed.

(** X5.  The catch-all case of the dispatch takes every [FaaSType] that is
    not the string ["GitHubActions"], a value that is not a string included
    ([None], a number, a list): when [str] of the value is [text] and the
    secret name is not empty, [faasr_secret] raises [NotImplementedError]
    with [text] in the message, and does not call [os.getenv]. *)
Theorem faasr_secret_unsupported_value (w : world) (f s name text : string)
    (v : pyval) :
  name <> "" ->
  current_function (w_payload w) = Some f ->
  server_of (w_payload w) f = Some s ->
  type_value_of (w_payload w) s = Some v ->
  matches_str v "GitHubActions" = false ->
  py_str (w_limits w) v = inl text ->
  result (faasr_secret name) w =
    Raise (Raised NotImplementedError (msg_unsupported text))
  /\ mentions (msg_unsupported text) text
  /\ getenv_calls (w_trace (after (faasr_secret name) w)) =
     getenv_calls (w_trace w).
Proof.
  intros Hn Hf Hs Hv Hm Htext.
  destruct (faasr_secret_type_value w f s name v Hn Hf Hs Hv Hm)
    as (w' & Htr & Hrun).
  unfold result, after. rewrite Hrun, Htext. cbn [fst snd].
  split; [reflexivity|]. split; [apply mentions_infix|].
  rewrite trace_record, getenv_calls_snoc, app_nil_r, Htr.
  apply getenv_calls_resolution.
Qed.

Lemma faasr_secret_unsupported_value_witness :
  type_value_of (w_payload numeric_type_world) "s1" = Some (VInt 3) /\
  py_str (w_limits numeric_type_world) (VInt 3) = inl "3" /\
  result (faasr_secret "MY_SECRET") numeric_type_world =
  Raise (Raised NotImplementedError
    "faasr_secret: Compute server type '3' is not supported. Only GitHubActions is currently supported.").
Proof.
  split; [reflexivity|]. split; [vm_compute; reflexivity|].
  apply (faasr_secret_unsupported_value numeric_type_world
           "f1" "s1" "MY_SECRET" "3" (VInt 3)).
  - discriminate.
  - reflexivity.
  - reflexivity.
  - reflexivity.
  - reflexivity.
  - vm_compute; reflexivity.
Defined.

(** X13.  The messages are built before they are logged.  When the
    [FaaSType] to report is a value that [str] refuses to convert (an int of
    more digits than the interpreter's limit, a list nested deeper than the
    recursion limit leaves room for), the exception of the f-string,
    [ValueError] or [RecursionError], gets out of [faasr_secret] in place of
    [NotImplementedError], and nothing is logged. *)
Theorem faasr_secret_unsupported_unprintable (w : world) (f s name : string)
    (v : pyval) (cls : exn_class) :
  name <> "" ->
  current_function (w_payload w) = Some f ->
  server_of (w_payload w) f = Some s ->
  type_value_of (w_payload w) s = Some v ->
  matches_str v "GitHubActions" = false ->
  py_str (w_limits w) v = inr cls ->
  result (faasr_secret name) w = Raise (Builtin cls)
  /\ log_calls (w_trace (after (faasr_secret name) w)) =
     log_calls (w_trace w).
Proof.
  intros Hn Hf Hs Hv Hm Htext.
  destruct (faasr_secret_type_value w f s name v Hn Hf Hs Hv Hm)
    as (w' & Htr & Hrun).
  unfold result, after. rewrite Hrun, Htext. cbn [fst snd].
  split; [reflexivity|]. rewrite Htr. apply log_calls_resolution.
Qed.

Lemma faasr_secret_unsupported_unprintable_witness :
  py_str (w_limits huge_type_world) (VInt (10 ^ 4300)) = inr ValueError /\
  result (faasr_secret "MY_SECRET") huge_type_world =
  Raise (Builtin ValueError).
Proof.
  assert (Htext : py_str (w_limits huge_type_world) (VInt (10 ^ 4300)) =
                  inr ValueError)
    by (vm_compute; reflexivity).
  split; [exact Htext|].
  apply (faasr_secret_unsupported_unprintable huge_type_world
           "f1" "s1" "MY_SECRET" (VInt (10 ^ 4300)) ValueError).
  - discriminate.
  - reflexivity.
  - reflexivity.
  - reflexivity.
  - reflexivity.
  - exact Htext.
Defined.

(** ** Outside the data model *)

(** X6.  Only [KeyError] is caught.  When [ActionList] is there but is not
    a mapping ([None], a bool, a number, a string, a list), the current
    function being a string that is not empty, the subscription raises
    [TypeError]: it gets through [faasr_secret] as it is, and nothing is
    logged. *)
Theorem faasr_secret_action_list_not_mapping (w : world) (f name : string)
    (v : pyval) :
  name <> "" ->
  current_function (w_payload w) = Some f ->
  dict_lookup (w_payload w) "ActionList" = Some v ->
  is_mapping v = false ->
  result (faasr_secret name) w = Raise (Builtin TypeError)
  /\ log_calls (w_trace (after (faasr_secret name) w)) =
     log_calls (w_trace w).
Proof.
  intros Hn Hf Hal Hv. apply String.eqb_neq in Hn.
  apply current_function_Some in Hf as [Hf Hfne].
  unfold result, after, faasr_secret. run_known.
  destruct v as [|b|n|s|l|d]; try discriminate;
    cbn [subscript as_index]; cbv beta iota; run;
    cbn [fst snd w_trace record];
    rewrite !log_calls_snoc, !app_nil_r; auto.
Qed.

Lemma faasr_secret_action_list_not_mapping_witness :
  current_function (w_payload ill_typed_world) = Some "f1" /\
  result (faasr_secret "MY_SECRET") ill_typed_world =
  Raise (Builtin TypeError).
Proof.
  split; [reflexivity|].
  apply (faasr_secret_action_list_not_mapping ill_typed_world
           "f1" "MY_SECRET" (VStr "f1")).
  - discriminate.
  - reflexivity.
  - reflexivity.
  - reflexivity.
Defined.

(** ** What comes from the environment *)

Section OffEnviron.

Context {A B : Type}.

Lemma off_environ_ret (a : A) : off_environ (mret a : M A).
Proof. intros w. split; reflexivity. Qed.

Lemma off_environ_raise (e : exn) :
  own_key_error (@Raise A e) = false -> off_environ (@raise A e).
Proof. intros He w. split; [reflexivity|exact He]. Qed.

Lemma off_environ_bind (m : M A) (f : A -> M B) :
  off_environ m -> (forall a, off_environ (f a)) -> off_environ (m ≫= f).
Proof.
  intros Hm Hf w. destruct (Hm w) as [Hg Hk]. unfold result, after in *.
  rewrite run_bind. destruct (m w) as [[a|e] w1]; cbn [fst snd] in *.
  - destruct (Hf a w1) as [Hg' Hk']. unfold result, after in *.
    split; [congruence|assumption].
  - split; assumption.
Qed.

Lemma off_environ_try_except (c : exn_class) (body handler : M A) :
  off_environ body -> off_environ handler ->
  off_environ (try_except c body handler).
Proof.
  intros Hb Hh w. destruct (Hb w) as [Hg Hk]. unfold result, after in *.
  rewrite run_try_except. destruct (body w) as [[a|e] w1]; cbn [fst snd] in *.
  - split; assumption.
  - destruct (exn_class_eqb (class_of e) c); [|split; assumption].
    destruct (Hh w1) as [Hg' Hk']. unfold result, after in *.
    split; [congruence|assumption].
Qed.

End OffEnviron.

Lemma off_environ_emit_lookup (k : pyval) : off_environ (emit (EvLookup k)).
Proof.
  intros w. unfold result, after. rewrite run_emit. cbn [fst snd].
  rewrite trace_record, getenv_calls_snoc, app_nil_r. auto.
Qed.

Lemma off_environ_logger_error (msg : string) : off_environ (logger_error msg).
Proof.
  intros w. unfold result, after. rewrite run_logger_error. cbn [fst snd].
  rewrite trace_record, getenv_calls_snoc, app_nil_r. auto.
Qed.

Lemma off_environ_when (c : bool) (body : M unit) :
  off_environ body -> off_environ (when_ c body).
Proof. destruct c; [trivial|]. intros _. apply off_environ_ret. Qed.

Lemma off_environ_faasr_payload : off_environ faasr_payload.
Proof. intros w. split; reflexivity. Qed.

Lemma off_environ_getitem (c k : pyval) : off_environ (getitem c k).
Proof.
  intros w. unfold result, after. rewrite run_getitem.
  destruct (subscript c k); cbn [fst snd];
    rewrite trace_record, getenv_calls_snoc, app_nil_r; auto.
Qed.

Lemma off_environ_format_value (v : pyval) : off_environ (format_value v).
Proof.
  intros w. unfold result, after. rewrite run_format_value.
  destruct (py_str _ v); split; reflexivity.
Qed.

Lemma off_environ_dict_get (d : pydict) (k : string) (dflt : pyval) :
  off_environ (dict_get d k dflt).
Proof.
  intros w. unfold result, after. rewrite run_dict_get. cbn [fst snd].
  rewrite trace_record, getenv_calls_snoc, app_nil_r. auto.
Qed.

Create HintDb offenv discriminated.

#[local] Hint Resolve off_environ_ret off_environ_try_except
  off_environ_emit_lookup off_environ_logger_error off_environ_when
  off_environ_faasr_payload off_environ_getitem off_environ_dict_get
  off_environ_format_value : offenv.

#[local] Hint Extern 1 (off_environ (raise _)) =>
  apply off_environ_raise; reflexivity : offenv.

#[local] Hint Extern 2 (off_environ (_ ≫= _)) =>
  apply off_environ_bind; [|intros ?] : offenv.

Lemma environ_outcome_bind {A : Type} (name : string) (m : M A)
    (f : A -> M string) :
  off_environ m -> read_only m -> (forall a, environ_outcome name (f a)) ->
  environ_outcome name (m ≫= f).
Proof.
  intros Hm Hro Hf w. destruct (Hm w) as [Hg Hk].
  destruct (Hro w) as (_ & Henv & _). unfold result, after in *.
  rewrite run_bind. destruct (m w) as [[a|e] w1]; cbn [fst snd] in *.
  - specialize (Hf a w1). unfold result, after in Hf.
    rewrite Hg, Henv in Hf. exact Hf.
  - destruct e as [c msg|c]; [destruct c|]; try discriminate;
      cbn [from_environ]; rewrite app_nil_r; auto.
Qed.

Lemma environ_outcome_off (name : string) (m : M string) :
  off_environ m -> (forall w v, result m w <> Return v) ->
  environ_outcome name m.
Proof.
  intros Hm Hnr w. destruct (Hm w) as [Hg Hk]. specialize (Hnr w).
  destruct (result m w) as [v|e]; [destruct (Hnr v); reflexivity|].
  destruct e as [c msg|c]; [destruct c|]; try discriminate;
    cbn [from_environ]; rewrite app_nil_r; auto.
Qed.

Lemma environ_outcome_faasr_secret_gh (name : string) :
  environ_outcome name (faasr_secret_gh name).
Proof.
  intros w. unfold result, after. rewrite faasr_secret_gh_run.
  destruct (w_environ w !! name) as [v|] eqn:Hv; cbn [fst snd from_environ].
  - rewrite trace_record, getenv_calls_snoc. auto.
  - rewrite !trace_record, !getenv_calls_snoc, app_nil_r. auto.
Qed.

Lemma environ_outcome_faasr_secret (name : string) :
  environ_outcome name (faasr_secret name).
Proof.
  unfold faasr_secret. cbv zeta.
  repeat (apply environ_outcome_bind;
          [auto 20 with offenv|auto 20 with frame|intros ?]).
  destruct (matches_str _ _); [apply environ_outcome_faasr_secret_gh|].
  apply environ_outcome_off; [auto 20 with offenv|].
  intros w v. unfold result. run. destruct (py_str _ _); run; discriminate.
Qed.

(** X7.  A value that [faasr_secret] returns is the one the environment
    holds under the secret name, which is not empty: no default takes the
    place of a secret, on any payload. *)
Theorem faasr_secret_value_from_environ (name v : string) (w : world) :
  result (faasr_secret name) w = Return v ->
  w_environ w !! name = Some v /\ name <> "".
Proof.
  intros Hres. split.
  - destruct (environ_outcome_faasr_secret name w) as [_ H].
    rewrite Hres in H. exact H.
  - intros ->. unfold result in Hres. rewrite faasr_secret_empty_run in Hres.
    discriminate.
Qed.

Lemma faasr_secret_value_from_environ_witness :
  result (faasr_secret "MY_SECRET") (scenario_world "GitHubActions") =
    Return "abc123" /\
  w_environ (scenario_world "GitHubActions") !! "MY_SECRET" = Some "abc123".
Proof.
  assert (Hres : result (faasr_secret "MY_SECRET")
                   (scenario_world "GitHubActions") = Return "abc123")
    by (vm_compute; reflexivity).
  split; [exact Hres|].
  apply (faasr_secret_value_from_environ "MY_SECRET" "abc123"
           (scenario_world "GitHubActions") Hres).
Defined.

Section Caught.

Context {A B : Type}.

Lemma catches_key_errors_ret (a : A) : catches_key_errors (mret a : M A).
Proof. intros w. reflexivity. Qed.

Lemma catches_key_errors_raise (c : exn_class) (msg : string) :
  catches_key_errors (@raise A (Raised c msg)).
Proof. intros w. reflexivity. Qed.

Lemma catches_key_errors_bind (m : M A) (f : A -> M B) :
  catches_key_errors m -> (forall a, catches_key_errors (f a)) ->
  catches_key_errors (m ≫= f).
Proof.
  intros Hm Hf w. specialize (Hm w). unfold result in *. rewrite run_bind.
  destruct (m w) as [[a|e] w1]; cbn [fst] in *; [apply Hf|exact Hm].
Qed.

(** Whatever the body does: [except KeyError] lets no [KeyError] through. *)
Lemma catches_key_errors_try_except (body handler : M A) :
  catches_key_errors handler ->
  catches_key_errors (try_except KeyError body handler).
Proof.
  intros Hh w. unfold result. rewrite run_try_except.
  destruct (body w) as [[a|e] w1]; [reflexivity|].
  destruct (exn_class_eqb (class_of e) KeyError) eqn:Hc; [apply Hh|].
  destruct e as [c msg|c]; [reflexivity|]. destruct c; try reflexivity.
  discriminate.
Qed.

End Caught.

Lemma catches_key_errors_logger_error (msg : string) :
  catches_key_errors (logger_error msg).
Proof. intros w. reflexivity. Qed.

Lemma catches_key_errors_when (c : bool) (body : M unit) :
  catches_key_errors body -> catches_key_errors (when_ c body).
Proof. destruct c; [trivial|]. intros _. apply catches_key_errors_ret. Qed.

Lemma catches_key_errors_faasr_payload : catches_key_errors faasr_payload.
Proof. intros w. reflexivity. Qed.

Lemma catches_key_errors_format_value (v : pyval) :
  catches_key_errors (format_value v).
Proof.
  intros w. unfold result. rewrite run_format_value.
  destruct (py_str _ v) as [text|cls] eqn:Hstr; [reflexivity|].
  apply py_str_error in Hstr as [-> | ->]; reflexivity.
Qed.

Lemma catches_key_errors_dict_get (d : pydict) (k : string) (dflt : pyval) :
  catches_key_errors (dict_get d k dflt).
Proof. intros w. reflexivity. Qed.

Lemma catches_key_errors_os_getenv (name : string) :
  catches_key_errors (os_getenv name).
Proof. intros w. reflexivity. Qed.

Create HintDb caught discriminated.

#[local] Hint Resolve catches_key_errors_ret catches_key_errors_raise
  catches_key_errors_try_except catches_key_errors_logger_error
  catches_key_errors_when catches_key_errors_faasr_payload
  catches_key_errors_dict_get catches_key_errors_os_getenv
  catches_key_errors_format_value : caught.

#[local] Hint Extern 2 (catches_key_errors (_ ≫= _)) =>
  apply catches_key_errors_bind; [|intros ?] : caught.

#[local] Hint Extern 2 (catches_key_errors (if ?b then _ else _)) =>
  destruct b : caught.

#[local] Hint Extern 2
    (catches_key_errors (match ?o with Some _ => _ | None => _ end)) =>
  destruct o : caught.

Lemma catches_key_errors_faasr_secret_gh (name : string) :
  catches_key_errors (faasr_secret_gh name).
Proof. unfold faasr_secret_gh. cbv zeta. auto 10 with caught. Qed.

Lemma catches_key_errors_faasr_secret (name : string) :
  catches_key_errors (faasr_secret name).
Proof.
  unfold faasr_secret. cbv zeta.
  pose proof (catches_key_errors_faasr_secret_gh name).
  auto 40 with caught.
Qed.

(** X8.  A [KeyError] says one thing only.  Every lookup in the payload is
    under an [except KeyError], so on any payload a [KeyError] that gets out
    of [faasr_secret] is the one of [faasr_secret_gh]: the secret name is
    not set in the environment, and the message is the one that names it. *)
Theorem faasr_secret_key_error_unset (name : string) (e : exn) (w : world) :
  result (faasr_secret name) w = Raise e ->
  class_of e = KeyError ->
  e = Raised KeyError (msg_not_found name) /\ w_environ w !! name = None.
Proof.
  intros Hres Hc. destruct e as [c msg|c]; cbn [class_of] in Hc; subst c.
  - destruct (environ_outcome_faasr_secret name w) as [_ H].
    rewrite Hres in H. destruct H as [Hv ->]. auto.
  - pose proof (catches_key_errors_faasr_secret name w) as H.
    rewrite Hres in H. discriminate.
Qed.

Lemma faasr_secret_key_error_unset_witness :
  result (faasr_secret "OTHER") (scenario_world "GitHubActions") =
    Raise (Raised KeyError (msg_not_found "OTHER")) /\
  w_environ (scenario_world "GitHubActions") !! "OTHER" = None.
Proof.
  assert (Hres : result (faasr_secret "OTHER")
                   (scenario_world "GitHubActions") =
                 Raise (Raised KeyError (msg_not_found "OTHER")))
    by (vm_compute; reflexivity).
  split; [exact Hres|].
  apply (faasr_secret_key_error_unset "OTHER"
           (Raised KeyError (msg_not_found "OTHER"))
           (scenario_world "GitHubActions") Hres).
  reflexivity.
Defined.

(** X9.  [faasr_secret] calls [os.getenv] at most once and with the secret
    name only: once when it returns a value or raises the [KeyError] of an
    unset name, not at all when it fails in any other way. *)
Theorem faasr_secret_getenv_once (name : string) (w : world) :
  getenv_calls (w_trace (after (faasr_secret name) w)) =
  (getenv_calls (w_trace w) ++
   if from_environ (result (faasr_secret name) w) then [name] else [])%list.
Proof. apply environ_outcome_faasr_secret. Qed.

(** ** What is logged *)

Section Logging.

Context {A B : Type}.

Lemma builtin_raises_ret (a : A) : builtin_raises (mret a : M A).
Proof. intros w. reflexivity. Qed.

Lemma builtin_raises_bind (m : M A) (f : A -> M B) :
  builtin_raises m -> (forall a, builtin_raises (f a)) ->
  builtin_raises (m ≫= f).
Proof.
  intros Hm Hf w. specialize (Hm w). unfold result in *. rewrite run_bind.
  destruct (m w) as [[a|e] w1]; cbn [fst] in *; [apply Hf|exact Hm].
Qed.

Lemma logs_own_raises_ret (a : A) : logs_own_raises (mret a : M A).
Proof.
  intros w. split; [symmetry; apply app_nil_r|]. intros c msg. discriminate.
Qed.

Lemma logs_own_raises_bind (m : M A) (f : A -> M B) :
  logs_own_raises m -> (forall a, logs_own_raises (f a)) ->
  logs_own_raises (m ≫= f).
Proof.
  intros Hm Hf w. destruct (Hm w) as [Hl Hlast]. unfold result, after in *.
  rewrite run_bind. destruct (m w) as [[a|e] w1]; cbn [fst snd] in *.
  - destruct (Hf a w1) as [Hl' Hlast']. unfold result, after in *.
    cbn [own_message] in Hl. rewrite app_nil_r in Hl.
    split; [congruence|assumption].
  - split; [exact Hl|].
    intros c msg [= ->]. apply (Hlast c msg). reflexivity.
Qed.

(** The blocks of the source that fail: [logger.error(err_msg)] and then
    [raise c(err_msg)]. *)
Lemma logs_own_raises_block (c : exn_class) (msg : string) :
  logs_own_raises (logger_error msg ≫= fun _ => @raise A (Raised c msg)).
Proof.
  intros w. unfold result, after. run. cbn [fst snd own_message].
  rewrite trace_record, log_calls_snoc. split; [reflexivity|].
  intros c' msg' [= _ <-]. eauto.
Qed.

Lemma logs_own_raises_try_except (c : exn_class) (body handler : M A) :
  builtin_raises body -> logs_own_raises body -> logs_own_raises handler ->
  logs_own_raises (try_except c body handler).
Proof.
  intros Hbi Hb Hh w. destruct (Hb w) as [Hl Hlast]. specialize (Hbi w).
  unfold result, after in *. rewrite run_try_except.
  destruct (body w) as [[a|e] w1]; cbn [fst snd] in *.
  - split; assumption.
  - destruct (exn_class_eqb (class_of e) c); [|split; assumption].
    destruct (Hh w1) as [Hl' Hlast']. unfold result, after in *.
    rewrite Hbi, app_nil_r in Hl. split; [congruence|assumption].
Qed.

End Logging.

Lemma builtin_raises_faasr_payload : builtin_raises faasr_payload.
Proof. intros w. reflexivity. Qed.

Lemma builtin_raises_getitem (c k : pyval) : builtin_raises (getitem c k).
Proof.
  intros w. unfold result. rewrite run_getitem.
  destruct (subscript c k); reflexivity.
Qed.

Lemma logs_own_raises_faasr_payload : logs_own_raises faasr_payload.
Proof.
  intros w. split; [symmetry; apply app_nil_r|]. intros c msg. discriminate.
Qed.

Lemma logs_own_raises_getitem (c k : pyval) : logs_own_raises (getitem c k).
Proof.
  intros w. unfold result, after. rewrite run_getitem.
  destruct (subscript c k); cbn [fst snd own_message];
    rewrite trace_record, log_calls_snoc;
    (split; [reflexivity|intros c' msg'; discriminate]).
Qed.

Lemma logs_own_raises_format_value (v : pyval) :
  logs_own_raises (format_value v).
Proof.
  intros w. unfold result, after. rewrite run_format_value.
  destruct (py_str _ v); cbn [fst snd own_message]; rewrite app_nil_r;
    (split; [reflexivity|intros c' msg'; discriminate]).
Qed.

Lemma logs_own_raises_dict_get (d : pydict) (k : string) (dflt : pyval) :
  logs_own_raises (dict_get d k dflt).
Proof.
  intros w. unfold result, after. rewrite run_dict_get.
  cbn [fst snd own_message]. rewrite trace_record, log_calls_snoc.
  split; [reflexivity|intros c' msg'; discriminate].
Qed.

Lemma logs_own_raises_os_getenv (name : string) :
  logs_own_raises (os_getenv name).
Proof.
  intros w. unfold result, after. rewrite run_os_getenv.
  cbn [fst snd own_message]. rewrite trace_record, log_calls_snoc.
  split; [reflexivity|intros c' msg'; discriminate].
Qed.

Lemma logs_own_raises_when (c : bool) (body : M unit) :
  logs_own_raises body -> logs_own_raises (when_ c body).
Proof. destruct c; [trivial|]. intros _. apply logs_own_raises_ret. Qed.

Create HintDb logging discriminated.

#[local] Hint Resolve builtin_raises_ret builtin_raises_faasr_payload
  builtin_raises_getitem logs_own_raises_ret logs_own_raises_block
  logs_own_raises_faasr_payload logs_own_raises_getitem
  logs_own_raises_dict_get logs_own_raises_os_getenv logs_own_raises_when
  logs_own_raises_format_value : logging.

#[local] Hint Extern 2 (builtin_raises (_ ≫= _)) =>
  apply builtin_raises_bind; [|intros ?] : logging.

#[local] Hint Extern 3 (logs_own_raises (_ ≫= _)) =>
  apply logs_own_raises_bind; [|intros ?] : logging.

#[local] Hint Extern 2 (logs_own_raises (try_except _ _ _)) =>
  apply logs_own_raises_try_except : logging.

#[local] Hint Extern 2 (logs_own_raises (if ?b then _ else _)) =>
  destruct b : logging.

#[local] Hint Extern 2
    (logs_own_raises (match ?o with Some _ => _ | None => _ end)) =>
  destruct o : logging.

Lemma logs_own_raises_faasr_secret_gh (name : string) :
  logs_own_raises (faasr_secret_gh name).
Proof. unfold faasr_secret_gh. cbv zeta. auto 10 with logging. Qed.

Lemma logs_own_raises_faasr_secret (name : string) :
  logs_own_raises (faasr_secret name).
Proof.
  unfold faasr_secret. cbv zeta.
  pose proof (logs_own_raises_faasr_secret_gh name).
  auto 40 with logging.
Qed.

(** X10.  Each exception that [faasr_secret] raises itself is logged once,
    with the message of the exception, and that is the last thing done
    before it is raised; a run that returns, or that ends in an exception
    of the interpreter, logs nothing. *)
Theorem faasr_secret_logs_what_it_raises (name : string) (w : world) :
  log_calls (w_trace (after (faasr_secret name) w)) =
    (log_calls (w_trace w) ++ own_message (result (faasr_secret name) w))%list
  /\ forall c msg,
       result (faasr_secret name) w = Raise (Raised c msg) ->
       exists t,
         w_trace (after (faasr_secret name) w) = (t ++ [EvLogError msg])%list.
Proof. apply logs_own_raises_faasr_secret. Qed.

(** [faasr_secret_gh] logs in the same way: the message of its [KeyError],
    once, and nothing when it returns the value. *)
Lemma faasr_secret_gh_logs_what_it_raises (name : string) (w : world) :
  log_calls (w_trace (after (faasr_secret_gh name) w)) =
    (log_calls (w_trace w) ++
     own_message (result (faasr_secret_gh name) w))%list
  /\ forall c msg,
       result (faasr_secret_gh name) w = Raise (Raised c msg) ->
       exists t,
         w_trace (after (faasr_secret_gh name) w) =
         (t ++ [EvLogError msg])%list.
Proof. apply logs_own_raises_faasr_secret_gh. Qed.

(** ** The value of the secret stays out of the trace *)

Lemma set_environ_record (environ : gmap string string) (e : event)
    (w : world) :
  set_environ environ (record e w) = record e (set_environ environ w).
Proof. reflexivity. Qed.

Section Blind.

Context {A B : Type}.

Lemma environ_blind_ret (a : A) : environ_blind (mret a : M A).
Proof. intros w environ. reflexivity. Qed.

Lemma environ_blind_raise (e : exn) : environ_blind (@raise A e).
Proof. intros w environ. reflexivity. Qed.

Lemma environ_blind_bind (m : M A) (f : A -> M B) :
  environ_blind m -> (forall a, environ_blind (f a)) ->
  environ_blind (m ≫= f).
Proof.
  intros Hm Hf w environ. rewrite !run_bind, Hm.
  destruct (m w) as [[a|e] w1]; cbn [fst snd]; [apply Hf|reflexivity].
Qed.

Lemma environ_blind_try_except (c : exn_class) (body handler : M A) :
  environ_blind body -> environ_blind handler ->
  environ_blind (try_except c body handler).
Proof.
  intros Hb Hh w environ. rewrite !run_try_except, Hb.
  destruct (body w) as [[a|e] w1]; cbn [fst snd]; [reflexivity|].
  destruct (exn_class_eqb (class_of e) c); [apply Hh|reflexivity].
Qed.

End Blind.

Lemma environ_blind_emit (e : event) : environ_blind (emit e).
Proof. intros w environ. reflexivity. Qed.

Lemma environ_blind_logger_error (msg : string) :
  environ_blind (logger_error msg).
Proof. intros w environ. reflexivity. Qed.

Lemma environ_blind_when (c : bool) (body : M unit) :
  environ_blind body -> environ_blind (when_ c body).
Proof. destruct c; [trivial|]. intros _. apply environ_blind_ret. Qed.

Lemma environ_blind_faasr_payload : environ_blind faasr_payload.
Proof. intros w environ. reflexivity. Qed.

Lemma environ_blind_getitem (c k : pyval) : environ_blind (getitem c k).
Proof.
  intros w environ. rewrite !run_getitem.
  destruct (subscript c k); reflexivity.
Qed.

Lemma environ_blind_format_value (v : pyval) :
  environ_blind (format_value v).
Proof.
  intros w environ. rewrite !run_format_value.
  destruct (py_str _ v); reflexivity.
Qed.

Lemma environ_blind_dict_get (d : pydict) (k : string) (dflt : pyval) :
  environ_blind (dict_get d k dflt).
Proof. intros w environ. reflexivity. Qed.

Create HintDb blind discriminated.

#[local] Hint Resolve environ_blind_ret environ_blind_raise
  environ_blind_try_except environ_blind_emit environ_blind_logger_error
  environ_blind_when environ_blind_faasr_payload environ_blind_getitem
  environ_blind_dict_get environ_blind_format_value : blind.

#[local] Hint Extern 2 (environ_blind (_ ≫= _)) =>
  apply environ_blind_bind; [|intros ?] : blind.

Lemma value_blind_of_environ_blind (name : string) (m : M string) :
  environ_blind m -> value_blind name m.
Proof.
  intros Hm w environ _. unfold result, after. rewrite Hm. cbn [fst snd].
  split; reflexivity.
Qed.

Lemma value_blind_bind {A : Type} (name : string) (m : M A)
    (f : A -> M string) :
  environ_blind m -> read_only m -> (forall a, value_blind name (f a)) ->
  value_blind name (m ≫= f).
Proof.
  intros Hm Hro Hf w environ Hset. destruct (Hro w) as (_ & Henv & _).
  unfold result, after in *. rewrite !run_bind, Hm.
  destruct (m w) as [[a|e] w1]; cbn [fst snd] in *.
  - apply (Hf a w1 environ). rewrite Henv. exact Hset.
  - split; reflexivity.
Qed.

Lemma value_blind_faasr_secret_gh (name : string) :
  value_blind name (faasr_secret_gh name).
Proof.
  intros w environ Hset. unfold result, after.
  rewrite !faasr_secret_gh_run. cbn [w_environ set_environ].
  destruct (w_environ w !! name) as [v|] eqn:Hv,
           (environ !! name) as [v'|] eqn:Hv'; cbn [fst snd].
  - split; reflexivity.
  - destruct Hset as [_ Hset]. specialize (Hset eq_refl). discriminate.
  - destruct Hset as [Hset _]. specialize (Hset eq_refl). discriminate.
  - split; reflexivity.
Qed.

Lemma value_blind_faasr_secret (name : string) :
  value_blind name (faasr_secret name).
Proof.
  unfold faasr_secret. cbv zeta.
  repeat (apply value_blind_bind;
          [auto 20 with blind|auto 20 with frame|intros ?]).
  destruct (matches_str _ _); [apply value_blind_faasr_secret_gh|].
  apply value_blind_of_environ_blind. auto 10 with blind.
Qed.

(** X11.  The value of a secret shows nowhere but in the result.  Run
    [faasr_secret] in two environments in which the secret name is set, or
    in neither: the lookups and the messages logged are the same, and an
    exception raised in one is raised in the other, with the same
    message. *)
Theorem faasr_secret_value_not_in_trace (name : string) (w : world)
    (environ : gmap string string) :
  (w_environ w !! name = None <-> environ !! name = None) ->
  w_trace (after (faasr_secret name) (set_environ environ w)) =
    w_trace (after (faasr_secret name) w)
  /\ failure (result (faasr_secret name) (set_environ environ w)) =
     failure (result (faasr_secret name) w).
Proof. apply value_blind_faasr_secret. Qed.

Lemma faasr_secret_value_not_in_trace_witness :
  w_trace (after (faasr_secret "MY_SECRET")
             (set_environ {[ "MY_SECRET" := "hunter2" ]}
                (scenario_world "GitHubActions"))) =
  w_trace (after (faasr_secret "MY_SECRET") (scenario_world "GitHubActions")).
Proof.
  apply (faasr_secret_value_not_in_trace "MY_SECRET"
           (scenario_world "GitHubActions") {[ "MY_SECRET" := "hunter2" ]}).
  split; vm_compute; discriminate.
Defined.

(** ** The exceptions of the docstring *)

(** X12.  On a payload of the data model, whichever of its fields are
    missing, no exception of the interpreter gets out of [faasr_secret]: it
    returns, or raises one of the four exceptions its docstring lists, with
    a message. *)
Theorem faasr_secret_documented_exceptions (name : string) (w : world) :
  shaped (w_payload w) = true ->
  match result (faasr_secret name) w with
  | Return _ => True
  | Raise (Raised c _) =>
      c = ValueError \/ c = RuntimeError \/ c = KeyError \/
      c = NotImplementedError
  | Raise (Builtin _) => False
  end.
Proof.
  intros Hsh. unfold shaped in Hsh.
  apply andb_prop in Hsh as [Hsh H3]. apply andb_prop in Hsh as [H1 H2].
  unfold result.
  destruct (String.eqb name "") eqn:Hn.
  { apply String.eqb_eq in Hn. subst name.
    rewrite faasr_secret_empty_run. cbn [fst]. auto. }
  unfold faasr_secret.
  destruct (dict_lookup (w_payload w) "FunctionInvoke") as [v|] eqn:Hfi;
    [|run_known; cbn [fst]; auto].
  destruct v as [| | |f| |]; try discriminate. clear H1.
  destruct (String.eqb f "") eqn:Hf; [run_known; cbn [fst]; auto|].
  destruct (dict_lookup (w_payload w) "ActionList") as [v|] eqn:Hal;
    [|run_known; cbn [fst]; auto].
  destruct v as [| | | | |al]; try discriminate.
  destruct (dict_lookup al f) as [c|] eqn:Hc; [|run_known; cbn [fst]; auto].
  destruct (mapping_of_lookup _ _ _ _ H2 Hc) as (cfg & -> & Hcfg). clear H2.
  destruct (dict_lookup cfg "FaaSServer") as [v|] eqn:Hs;
    [|run_known; cbn [fst]; auto].
  destruct v as [| | |s| |]; try discriminate. clear Hcfg.
  destruct (dict_lookup (w_payload w) "ComputeServers") as [v|] eqn:Hcs;
    [|run_known; cbn [fst]; auto].
  destruct v as [| | | | |cs]; try discriminate.
  destruct (dict_lookup cs s) as [c|] eqn:Hsc; [|run_known; cbn [fst]; auto].
  destruct (mapping_of_lookup _ _ _ _ H3 Hsc) as (sc & -> & Hok). clear H3.
  destruct (dict_lookup sc "FaaSType") as [v|] eqn:Ht;
    [|run_known; cbn [fst]; auto].
  destruct v as [| | |t| |]; try discriminate. clear Hok.
  run_known.
  destruct (String.eqb t "GitHubActions"); [|run; cbn [fst]; auto].
  rewrite faasr_secret_gh_run, !environ_record.
  destruct (w_environ w !! name); cbn [fst]; auto.
Qed.

Lemma faasr_secret_documented_exceptions_witness :
  shaped (w_payload no_type_world) = true /\
  match result (faasr_secret "MY_SECRET") no_type_world with
  | Return _ => True
  | Raise (Raised c _) =>
      c = ValueError \/ c = RuntimeError \/ c = KeyError \/
      c = NotImplementedError
  | Raise (Builtin _) => False
  end.
Proof.
  split; [reflexivity|].
  apply (faasr_secret_documented_exceptions "MY_SECRET" no_type_world).
  reflexivity.
Defined.
